(** * GRIB message to cube-metadata conversion (iris.fileformats.grib._load_convert)

    A shallow embedding of the package's three modules:
    - [_common.py]   : the bitmask decoders and the centre table,
    - [_edition1.py] : the GRIB1 flag decoder, the regular latitude-longitude
                       grid builder and the GRIB1 converter,
    - [__init__.py]  : the dispatcher [convert],
    and of the helper functions [classify] and [filter_events] of the example
    script [docs/iris/example_code/graphics/ElNino_composites.py].

    Python integers are [Z] (so [&] is [Z.land], also on negative values),
    NumPy float64 values are the kernel's binary64 [float], a 1-D float64
    array is a [list float], strings are [string], the [dict] of attributes is
    a [gmap string string].  Functions that mutate the metadata record or
    raise are written in a small state-and-exception monad [Py].

    The function bodies are embedded as they stand.  [_edition1.py] imports
    nothing: the names it uses that the package defines ([scanning_mode],
    [_CENTRES], [TranslationError]) are read as those definitions, and the
    ones defined nowhere in the source are parameters (class
    [Collaborators]).  The header line [def grid_type_regular_ll(section,
    metadata)] that precedes the builder has no body and is left out.
    [_common.py] is a complete module: it imports [namedtuple] only, so the
    name [TranslationError] in the body of [scanning_mode] is unbound there
    and evaluating it raises [NameError].  The GRIB2 converter, whose module
    is missing, is a parameter; a model of it after the specification
    ([grib2_convert_spec]) is used where a result is about GRIB2 messages. *)

From Stdlib Require Import ZArith List Lia.
From Stdlib Require Import Floats.PrimFloat Floats.SpecFloat Floats.FloatOps.
From Stdlib Require Import Floats.FloatAxioms.
From Stdlib Require Import DecimalString DecimalZ.
From stdpp Require Import base option list gmap strings pretty.
Import ListNotations.

Local Open Scope string_scope.
Local Open Scope list_scope.
Local Open Scope Z_scope.

(** ** Python values and effects *)

(** Exceptions.  The package raises [TranslationError] only; [PyException]
    stands for any other exception class a collaborator may raise. *)
Inductive exn : Type :=
| TranslationError (msg : string)
| PyException (cls msg : string).

(** The outcome of a call: a returned value or a raised exception. *)
Inductive outcome (A : Type) : Type :=
| Return (a : A)
| Raise (e : exn).
Arguments Return {A} a.
Arguments Raise {A} e.

(** [icoord_systems.GeogCS(radius)]: a spherical geographic coordinate system. *)
Record GeogCS : Type := mkGeogCS { semi_major_axis : Z }.

(** A reference to a coordinate-system object: its index in the store. *)
Definition cs_ref : Type := nat.

Module DimCoord.
(** [DimCoord(points, standard_name=.., units=.., coord_system=..,
    circular=..)]; [circular] defaults to [False]. *)
Record t : Type := make {
  points : list float;
  standard_name : string;
  units : string;
  coord_system : option cs_ref;
  circular : bool
}.
End DimCoord.

(** Entries of the pass-through containers ([factories], [references],
    [cell_methods]); this package never builds one. *)
Variant passthrough : Type := Passthrough (repr : string).

(** The [metadata] ordered dictionary of [convert], one field per key, in
    insertion order. *)
Record Metadata : Type := mkMetadata {
  factories : list passthrough;
  references : list passthrough;
  standard_name : option string;
  long_name : option string;
  units : option string;
  attributes : gmap string string;
  cell_methods : list passthrough;
  dim_coords_and_dims : list (DimCoord.t * Z);
  aux_coords_and_dims : list (DimCoord.t * Z)
}.

(** [iris.fileformats.rules.ConversionMetadata]: the named tuple returned by
    [convert], with the same nine fields. *)
Module ConversionMetadata.
Record t : Type := make {
  factories : list passthrough;
  references : list passthrough;
  standard_name : option string;
  long_name : option string;
  units : option string;
  attributes : gmap string string;
  cell_methods : list passthrough;
  dim_coords_and_dims : list (DimCoord.t * Z);
  aux_coords_and_dims : list (DimCoord.t * Z)
}.
End ConversionMetadata.

(** The part of the interpreter state the package touches: the allocated
    coordinate-system objects and the [metadata] dictionary that [convert]
    creates and hands, by reference, to the edition converter. *)
Record Store : Type := mkStore {
  cs_heap : list GeogCS;
  metadata : Metadata
}.

(** A call that may read and mutate the store and may raise.  A raise keeps
    the mutations made before it. *)
Definition Py (A : Type) : Type := Store -> outcome A * Store.

Definition ret {A} (a : A) : Py A := fun s => (Return a, s).

Definition raise {A} (e : exn) : Py A := fun s => (Raise e, s).

Definition bind {A B} (m : Py A) (k : A -> Py B) : Py B :=
  fun s => match m s with
           | (Return a, s') => k a s'
           | (Raise e, s') => (Raise e, s')
           end.

(** A call that does not touch the store. *)
Definition lift {A} (o : outcome A) : Py A := fun s => (o, s).

Declare Scope py_scope.
Delimit Scope py_scope with py.
Notation "x <- m ;; k" := (bind m (fun x => k))
  (at level 100, m at next level, right associativity) : py_scope.
Notation "m ;;; k" := (bind m (fun _ => k))
  (at level 100, right associativity) : py_scope.

(** [bool(n)] for an integer. *)
Definition truthy (n : Z) : bool := negb (n =? 0).

(** The binary64 value nearest to an integer, ties to even; an infinity when
    the integer is beyond the binary64 range. *)
Definition float_of_Z (n : Z) : float :=
  SF2Prim (binary_normalize prec emax n 0 false).

(** [float(n)], as Python converts the integer operand of a float operation:
    the nearest binary64 value, and [OverflowError] when the integer is beyond
    the binary64 range. *)
Definition float_of_int (n : Z) : outcome float :=
  match binary_normalize prec emax n 0 false with
  | S754_infinity _ =>
      Raise (PyException "OverflowError"
               "long int too large to convert to float")
  | _ => Return (float_of_Z n)
  end.

(** [n * x] for an integer [n] and a float [x]. *)
Definition int_mul_float (n : Z) (x : float) : outcome float :=
  match float_of_int n with
  | Return f => Return (PrimFloat.mul f x)
  | Raise e => Raise e
  end.

(** [str(n)], as [str.format] prints an integer: its decimal numeral, with a
    leading '-' when negative. *)
Definition str (n : Z) : string := NilZero.string_of_int (Z.to_int n).

(** ** NumPy *)

(** [np.arange(n, dtype=np.float64)]. *)
Definition arange (n : Z) : list float :=
  map (fun k : nat => float_of_Z (Z.of_nat k)) (seq 0 (Z.to_nat n)).

(** [a * c] and [a + c] for an array [a] and a scalar [c]. *)
Definition array_mul (a : list float) (c : float) : list float :=
  map (fun v => PrimFloat.mul v c) a.

Definition array_add (a : list float) (c : float) : list float :=
  map (fun v => PrimFloat.add v c) a.

(** ** The GRIB message *)

Record Section0 : Type := mkSection0 { editionNumber : Z }.

Record Section1 : Type := mkSection1 { centre : string }.

(** The keys of the GRIB1 grid definition section read by the builder. *)
Record GridSection : Type := mkGridSection {
  PLPresent : Z;
  scanningMode : Z;
  iDirectionIncrement : Z;
  longitudeOfFirstGridPoint : Z;
  Ni : Z;
  jDirectionIncrement : Z;
  latitudeOfFirstGridPoint : Z;
  Nj : Z
}.

(** Modelled from the spec: the grid definition section of a GRIB2 message
    (its section 3), which no source file reads.  External interfaces (6)
    lists its fields: [Ni], [Nj], increments, offsets, scanning-mode flag and
    quasi-regular-grid indicator, kept here under the GRIB1 keys, and the
    template identifier; 4.4 (step 3) adds the message-supplied
    basic-angle/subdivision pair. *)
Record Grib2GridSection : Type := mkGrib2GridSection {
  grid : GridSection;
  template : Z;
  basic_angle : Z;
  subdivisions : Z
}.

(** [field.sections[0]], [field.sections[1]], [field.sections[2]] and, for a
    GRIB2 message, [field.sections[3]]. *)
Record Field : Type := mkField {
  sections_0 : Section0;
  sections_1 : Section1;
  sections_2 : GridSection;
  sections_3 : Grib2GridSection
}.

(** ** _common.py *)

Record ScanningMode : Type := mkScanningMode {
  i_negative : bool;
  j_positive : bool;
  j_consecutive : bool;
  i_alternative : bool
}.

Record ProjectionCentre : Type := mkProjectionCentre {
  south_pole_on_projection_plane : bool;
  bipolar_and_symmetric : bool
}.

(** Reference Common Code Table C-1. *)
Definition _CENTRES : gmap string string :=
  {[ "ecmf" := "European Centre for Medium Range Weather Forecasts" ]}.

Definition projection_centre (projectionCentreFlag : Z) : ProjectionCentre :=
  let south_pole_on_projection_plane := truthy (Z.land projectionCentreFlag 0x80) in
  let bipolar_and_symmetric := truthy (Z.land projectionCentreFlag 0x40) in
  mkProjectionCentre south_pole_on_projection_plane bipolar_and_symmetric.

Definition scanning_mode (scanningMode : Z) : outcome ScanningMode :=
  let i_negative := truthy (Z.land scanningMode 0x80) in
  let j_positive := truthy (Z.land scanningMode 0x40) in
  let j_consecutive := truthy (Z.land scanningMode 0x20) in
  let i_alternative := truthy (Z.land scanningMode 0x10) in
  if i_alternative then
    let msg := ("Grid definition section 3 contains unsupported "
                ++ "alternative row scanning mode")%string in
    (* [raise TranslationError(msg)]: the module neither imports nor defines
       [TranslationError], so looking the name up raises. *)
    Raise (PyException "NameError"
             "global name 'TranslationError' is not defined")
  else
    Return (mkScanningMode i_negative j_positive j_consecutive i_alternative).

(** ** Names defined outside the package source

    [_edition1.py] and [__init__.py] use names whose definitions are not part
    of the source: the GRIB1 integer-to-degrees factor, the circularity test
    of [iris.util] (which may raise, as on an empty array), the argument
    checks of the [DimCoord] constructor of [iris.coords] (which raises
    [ValueError] on points that are not strictly monotonic), the GRIB1
    grid-definition-section dispatcher and the GRIB2 converter (module
    [_edition2]).  They are parameters of the development, as is the GRIB2
    integer-to-degrees conversion by basic angle and subdivisions, which the
    specification names without giving it. *)
Class Collaborators : Type := {
  _GRID_ACCURACY_IN_DEGREES_GRIB1 : float;
  _is_circular : list float -> float -> outcome bool;
  DimCoord_check : list float -> string -> string -> bool -> outcome unit;
  grid_definition_section_grib1 : GridSection -> Py unit;
  grib2_convert : Field -> Py unit;
  grib2_degrees : Z -> Z -> Z -> outcome float
}.

(** [DimCoord(points, standard_name=.., units=.., coord_system=..,
    circular=..)]: the constructor checks its arguments, raising on those it
    refuses, and then holds them.  The check does not look at the coordinate
    system. *)
Definition new_DimCoord `{Collaborators} (points : list float)
    (standard_name units : string) (coord_system : option cs_ref)
    (circular : bool) : outcome DimCoord.t :=
  match DimCoord_check points standard_name units circular with
  | Return _ =>
      Return (DimCoord.make points standard_name units coord_system circular)
  | Raise e => Raise e
  end.

(** ** Operations on the store *)

(** [icoord_systems.GeogCS(radius)]: allocate a fresh object, return its
    reference. *)
Definition new_GeogCS (radius : Z) : Py cs_ref :=
  fun s => (Return (length (cs_heap s)),
            mkStore (cs_heap s ++ [mkGeogCS radius]) (metadata s)).

(** [metadata['dim_coords_and_dims'].append(entry)]. *)
Definition append_dim_coord (entry : DimCoord.t * Z) : Py unit :=
  fun s =>
    let m := metadata s in
    (Return tt,
     mkStore (cs_heap s)
       (mkMetadata (factories m) (references m) (standard_name m)
          (long_name m) (units m) (attributes m) (cell_methods m)
          (dim_coords_and_dims m ++ [entry]) (aux_coords_and_dims m))).

(** [metadata['attributes'][key] = value]. *)
Definition set_attribute (key value : string) : Py unit :=
  fun s =>
    let m := metadata s in
    (Return tt,
     mkStore (cs_heap s)
       (mkMetadata (factories m) (references m) (standard_name m)
          (long_name m) (units m) (<[key := value]> (attributes m))
          (cell_methods m) (dim_coords_and_dims m) (aux_coords_and_dims m))).

(** ** _edition1.py *)

Record ResolutionFlags : Type := mkResolutionFlags {
  i_increments_given : bool;
  j_increments_given : bool;
  uv_resolved : bool
}.

(** The body computes the three flags and ends without a [return]
    statement, so the call evaluates to [None]. *)
Definition resolution_flags (resolutionAndComponentFlags : Z)
  : option ResolutionFlags :=
  let inc_given := truthy (Z.land resolutionAndComponentFlags 0x20) in
  let j_inc_given := truthy (Z.land resolutionAndComponentFlags 0x10) in
  let uv_resolved := truthy (Z.land resolutionAndComponentFlags 0x08) in
  None.

Definition grid_definition_template_0 `{Collaborators} (section : GridSection)
  : Py unit :=
  ((* Earth assumed spherical with radius of 6 371 229.0m *)
   cs <- new_GeogCS 6371229 ;;
   (* Check for reduced grid. *)
   if truthy (PLPresent section) then
     raise (TranslationError
              ("Grid definition section 2 contains unsupported "
               ++ "quasi-regular grid"))
   else
     scan <- lift (scanning_mode (scanningMode section)) ;;
     (* Calculate longitude points. *)
     x_inc <- lift (int_mul_float (iDirectionIncrement section)
                      _GRID_ACCURACY_IN_DEGREES_GRIB1) ;;
     x_offset <- lift (int_mul_float (longitudeOfFirstGridPoint section)
                         _GRID_ACCURACY_IN_DEGREES_GRIB1) ;;
     let x_direction := if i_negative scan then -1 else 1 in
     let Ni := Ni section in
     let x_points :=
       array_add (array_mul (array_mul (arange Ni) x_inc)
                    (float_of_Z x_direction)) x_offset in
     (* Determine whether the x-points (in degrees) are circular. *)
     circular <- lift (_is_circular x_points 360%float) ;;
     (* Calculate latitude points. *)
     y_inc <- lift (int_mul_float (jDirectionIncrement section)
                      _GRID_ACCURACY_IN_DEGREES_GRIB1) ;;
     y_offset <- lift (int_mul_float (latitudeOfFirstGridPoint section)
                         _GRID_ACCURACY_IN_DEGREES_GRIB1) ;;
     let y_direction := if j_positive scan then 1 else -1 in
     let Nj := Nj section in
     let y_points :=
       array_add (array_mul (array_mul (arange Nj) y_inc)
                    (float_of_Z y_direction)) y_offset in
     (* Create the lat/lon coordinates. *)
     y_coord <- lift (new_DimCoord y_points "latitude" "degrees" (Some cs)
                        false) ;;
     x_coord <- lift (new_DimCoord x_points "longitude" "degrees" (Some cs)
                        circular) ;;
     (* Determine the lat/lon dimensions. *)
     let '(y_dim, x_dim) := if j_consecutive scan then (1, 0) else (0, 1) in
     (* Add the lat/lon coordinates to the metadata dim coords. *)
     append_dim_coord (y_coord, y_dim) ;;;
     append_dim_coord (x_coord, x_dim))%py.

Definition grib1_convert `{Collaborators} (field : Field) : Py unit :=
  ((* Section 1 - Product Definition Section (PDS) *)
   let centre := _CENTRES !! centre (sections_1 field) in
   match centre with
   | Some centre => set_attribute "centre" centre
   | None => ret tt
   end ;;;
   (* Section 2 - Grid Definition Section (GDS) *)
   grid_definition_section_grib1 (sections_2 field))%py.

(** ** The GRIB2 converter, from the specification

    [__init__.py] imports [grib2_convert] from a module [_edition2] that is
    not part of the source. *)

(** Modelled from the spec: the GRIB2 regular latitude-longitude builder of
    the missing module, after the seven steps of 4.4.  It is given the
    section and the already-decoded scanning mode, builds the coordinate
    system of a spherical Earth of radius 6371229 m, refuses a quasi-regular
    grid with [TranslationError], computes the points
    [k * increment * direction + offset] from the increment and offset
    converted to degrees by the basic-angle/subdivision pair, determines
    circularity and the dimension of each axis, and appends the latitude and
    the longitude coordinate. *)
Definition grib2_regular_ll `{Collaborators} (section : Grib2GridSection)
    (scan : ScanningMode) : Py unit :=
  (cs <- new_GeogCS 6371229 ;;
   if truthy (PLPresent (grid section)) then
     raise (TranslationError "quasi-regular (reduced) grid unsupported")
   else
     let degrees := grib2_degrees (basic_angle section) (subdivisions section) in
     x_inc <- lift (degrees (iDirectionIncrement (grid section))) ;;
     x_offset <- lift (degrees (longitudeOfFirstGridPoint (grid section))) ;;
     let x_direction := if i_negative scan then (-1)%float else 1%float in
     let x_points :=
       array_add (array_mul (array_mul (arange (Ni (grid section))) x_inc)
                    x_direction) x_offset in
     y_inc <- lift (degrees (jDirectionIncrement (grid section))) ;;
     y_offset <- lift (degrees (latitudeOfFirstGridPoint (grid section))) ;;
     let y_direction := if j_positive scan then 1%float else (-1)%float in
     let y_points :=
       array_add (array_mul (array_mul (arange (Nj (grid section))) y_inc)
                    y_direction) y_offset in
     circular <- lift (_is_circular x_points 360%float) ;;
     y_coord <- lift (new_DimCoord y_points "latitude" "degrees" (Some cs)
                        false) ;;
     x_coord <- lift (new_DimCoord x_points "longitude" "degrees" (Some cs)
                        circular) ;;
     let '(y_dim, x_dim) := if j_consecutive scan then (1, 0) else (0, 1) in
     append_dim_coord (y_coord, y_dim) ;;;
     append_dim_coord (x_coord, x_dim))%py.

(** Modelled from the spec: [grib2_convert] of the missing module, after 4.5.
    It sets the centre attribute through the code table (omitted for an
    unknown code), decodes the scanning mode of the grid definition section
    and invokes the builder that matches the template identifier, here the
    regular latitude-longitude one for template 0, the only builder the
    source has; any other template is refused with a [TranslationError] that
    names it. *)
Definition grib2_convert_spec `{Collaborators} (field : Field) : Py unit :=
  (match _CENTRES !! centre (sections_1 field) with
   | Some centre => set_attribute "centre" centre
   | None => ret tt
   end ;;;
   scan <- lift (scanning_mode (scanningMode (grid (sections_3 field)))) ;;
   if template (sections_3 field) =? 0 then
     grib2_regular_ll (sections_3 field) scan
   else
     raise (TranslationError
              ("unsupported grid definition template "
               ++ str (template (sections_3 field)))%string))%py.

(** ** __init__.py *)

Module Import ConversionMetadataOps.
(** [ConversionMetadata._make(metadata.values())]: the nine values, in the
    dictionary's insertion order. *)
Definition _make (m : Metadata) : ConversionMetadata.t :=
  ConversionMetadata.make (factories m) (references m) (standard_name m)
    (long_name m) (units m) (attributes m) (cell_methods m)
    (dim_coords_and_dims m) (aux_coords_and_dims m).
End ConversionMetadataOps.

(** The [metadata] dictionary as [convert] initialises it. *)
Definition initial_metadata : Metadata :=
  mkMetadata [] [] None None None ∅ [] [] [].

(** How [convert] ends once the edition branch has run on [metadata]: the
    final [return] statement, or the exception on its way out. *)
Definition conclude (r : outcome unit * Store)
  : outcome ConversionMetadata.t * list GeogCS :=
  match r with
  | (Return _, s) => (Return (_make (metadata s)), cs_heap s)
  | (Raise e, s) => (Raise e, cs_heap s)
  end.

(** [convert(field)], run with the coordinate-system objects [heap] already
    allocated; returns the outcome and the objects allocated afterwards. *)
Definition convert `{Collaborators} (field : Field) (heap : list GeogCS)
  : outcome ConversionMetadata.t * list GeogCS :=
  let editionNumber := editionNumber (sections_0 field) in
  (* Initialise the cube metadata. *)
  let metadata0 := initial_metadata in
  let body : Py unit :=
    if editionNumber =? 1 then grib1_convert field
    else if editionNumber =? 2 then grib2_convert field
    else
      let msg :=
        ("GRIB edition " ++ str editionNumber ++ " is not supported")%string in
      raise (TranslationError msg) in
  conclude (body (mkStore heap metadata0)).

(** The section with its scanning-mode key replaced. *)
Definition with_scanningMode (section : GridSection) (mode : Z) : GridSection :=
  {| PLPresent := PLPresent section;
     scanningMode := mode;
     iDirectionIncrement := iDirectionIncrement section;
     longitudeOfFirstGridPoint := longitudeOfFirstGridPoint section;
     Ni := Ni section;
     jDirectionIncrement := jDirectionIncrement section;
     latitudeOfFirstGridPoint := latitudeOfFirstGridPoint section;
     Nj := Nj section |}.

(** The coordinate-system object a coordinate refers to, if any, in a heap
    of allocated objects. *)
Definition coord_system_object (heap : list GeogCS) (coord : DimCoord.t)
  : option GeogCS :=
  match DimCoord.coord_system coord with
  | Some r => heap !! r
  | None => None
  end.

(** ** The builder's computation, named

    The values the regular latitude-longitude builder computes on its way,
    for stating what it does. *)

(** [x_points] and [y_points], from the section and the decoded scanning
    mode. *)
Definition longitude_points `{Collaborators} (section : GridSection)
    (scan : ScanningMode) : list float :=
  array_add
    (array_mul
       (array_mul (arange (Ni section))
          (PrimFloat.mul (float_of_Z (iDirectionIncrement section))
             _GRID_ACCURACY_IN_DEGREES_GRIB1))
       (float_of_Z (if i_negative scan then -1 else 1)))
    (PrimFloat.mul (float_of_Z (longitudeOfFirstGridPoint section))
       _GRID_ACCURACY_IN_DEGREES_GRIB1).

Definition latitude_points `{Collaborators} (section : GridSection)
    (scan : ScanningMode) : list float :=
  array_add
    (array_mul
       (array_mul (arange (Nj section))
          (PrimFloat.mul (float_of_Z (jDirectionIncrement section))
             _GRID_ACCURACY_IN_DEGREES_GRIB1))
       (float_of_Z (if j_positive scan then 1 else -1)))
    (PrimFloat.mul (float_of_Z (latitudeOfFirstGridPoint section))
       _GRID_ACCURACY_IN_DEGREES_GRIB1).

(** Sequencing of calls that may raise but do not touch the store. *)
Definition and_then {A B} (o : outcome A) (k : A -> outcome B) : outcome B :=
  match o with
  | Return a => k a
  | Raise e => Raise e
  end.

(** The calls of the builder that may raise, in the order the builder makes
    them, ending in the decoded scanning mode and the circular flag. *)
Definition builder_checks `{Collaborators} (section : GridSection)
  : outcome (ScanningMode * bool) :=
  if truthy (PLPresent section) then
    Raise (TranslationError
             "Grid definition section 2 contains unsupported quasi-regular grid")
  else
    and_then (scanning_mode (scanningMode section)) (fun scan =>
    and_then (float_of_int (iDirectionIncrement section)) (fun _ =>
    and_then (float_of_int (longitudeOfFirstGridPoint section)) (fun _ =>
    and_then (_is_circular (longitude_points section scan) 360%float)
      (fun circular =>
    and_then (float_of_int (jDirectionIncrement section)) (fun _ =>
    and_then (float_of_int (latitudeOfFirstGridPoint section)) (fun _ =>
    and_then (DimCoord_check (latitude_points section scan)
                "latitude" "degrees" false) (fun _ =>
    and_then (DimCoord_check (longitude_points section scan)
                "longitude" "degrees" circular) (fun _ =>
    Return (scan, circular))))))))).

(** The store the builder leaves when it returns. *)
Definition built_store `{Collaborators} (section : GridSection)
    (scan : ScanningMode) (circular : bool) (s : Store) : Store :=
  mkStore (cs_heap s ++ [mkGeogCS 6371229])
    (mkMetadata (factories (metadata s)) (references (metadata s))
       (standard_name (metadata s)) (long_name (metadata s))
       (units (metadata s)) (attributes (metadata s))
       (cell_methods (metadata s))
       (dim_coords_and_dims (metadata s)
        ++ [(DimCoord.make (latitude_points section scan)
               "latitude" "degrees" (Some (length (cs_heap s))) false,
             if j_consecutive scan then 1 else 0);
            (DimCoord.make (longitude_points section scan)
               "longitude" "degrees" (Some (length (cs_heap s))) circular,
             if j_consecutive scan then 0 else 1)])
       (aux_coords_and_dims (metadata s))).

(** ** docs/iris/example_code/graphics/ElNino_composites.py

    The two helper functions of the example, [classify] and [filter_events].
    The sequence is a NumPy array of strings, a [list string]; index arrays
    are lists of integers. *)

(** A [for] loop over [items] whose body updates a loop-carried value and may
    raise. *)
Fixpoint for_each {A S : Type} (items : list A) (body : A -> S -> outcome S)
    (s : S) : outcome S :=
  match items with
  | [] => Return s
  | item :: rest =>
      match body item s with
      | Return s' => for_each rest body s'
      | Raise e => Raise e
      end
  end.

(** [xrange(n)]. *)
Definition xrange (n : Z) : list Z := map Z.of_nat (List.seq 0 (Z.to_nat n)).

(** [np.where(np.array(seq) == char, 1, 0)]. *)
Definition np_where_eq (seq : list string) (char : string) : list Z :=
  map (fun c => if String.eqb c char then 1 else 0) seq.

(** [np.diff(a)]: [out[i] = a[i+1] - a[i]]. *)
Fixpoint np_diff (a : list Z) : list Z :=
  match a with
  | x :: rest =>
      match rest with
      | y :: _ => (y - x) :: np_diff rest
      | [] => []
      end
  | [] => []
  end.

(** [np.where(cond)] for a 1-D boolean array: the indices where it holds, in
    increasing order; [nonzero_from i] numbers the first element [i]. *)
Fixpoint nonzero_from (i : Z) (cond : list bool) : list Z :=
  match cond with
  | [] => []
  | b :: rest => (if b then [i] else []) ++ nonzero_from (i + 1) rest
  end.

Definition np_where (cond : list bool) : list Z := nonzero_from 0 cond.

(** [a - b] for 1-D integer arrays, with NumPy's broadcasting: equal lengths
    element by element, a length-one operand against every element of the
    other, anything else a [ValueError]. *)
Definition np_sub (a b : list Z) : outcome (list Z) :=
  if (length a =? length b)%nat then Return (zip_with Z.sub a b)
  else
    match a, b with
    | [x], _ => Return (map (fun y => x - y) b)
    | _, [y] => Return (map (fun x => x - y) a)
    | _, _ =>
        Raise (PyException "ValueError"
                 "operands could not be broadcast together")
    end.

(** [seq[index] = value]: a negative index counts from the end, an index out
    of range raises [IndexError]. *)
Definition setitem (seq : list string) (index : Z) (value : string)
  : outcome (list string) :=
  let n := Z.of_nat (length seq) in
  if (0 <=? index) && (index <? n) then
    Return (<[Z.to_nat index := value]> seq)
  else if (- n <=? index) && (index <? 0) then
    Return (<[Z.to_nat (n + index) := value]> seq)
  else
    Raise (PyException "IndexError" "index out of bounds").

Definition classify (index_value low_threshold high_threshold : float)
  : string :=
  if PrimFloat.leb index_value low_threshold then "L"
  else if PrimFloat.leb high_threshold index_value then "H"
  else "N".

(** One iteration of the outer loop of [filter_events], for [char]. *)
Definition filter_events_char (min_length : Z) (char : string)
    (seq : list string) : outcome (list string) :=
  let bits := [0] ++ np_where_eq seq char ++ [0] in
  let diff := np_diff bits in
  let starts := np_where (map (fun d => 0 <? d) diff) in
  let ends := np_where (map (fun d => d <? 0) diff) in
  match np_sub ends starts with
  | Raise e => Raise e
  | Return lengths =>
      for_each (zip starts lengths)
        (fun '(start, length) seq =>
           if length <? min_length then
             for_each (xrange length)
               (fun i seq => setitem seq (start + i) "N") seq
           else Return seq)
        seq
  end.

(** [filter_events(seq, min_length)]: the function mutates [seq] in place and
    returns nothing; the model returns the array as the call leaves it. *)
Definition filter_events (seq : list string) (min_length : Z)
  : outcome (list string) :=
  for_each ["H"; "L"] (filter_events_char min_length) seq.

(** A reference formulation of one iteration, used to reason about it: a
    single pass from the left that carries the length [n] of the run of
    [char] it is in, and on leaving the run writes it out, as 'N's if it is
    shorter than [min_length] and as it was otherwise. *)
Definition write_run (min_length : Z) (char : string) (n : nat) : list string :=
  replicate n (if Z.of_nat n <? min_length then "N" else char).

Fixpoint nullify_short_runs (min_length : Z) (char : string) (n : nat)
    (l : list string) : list string :=
  match l with
  | [] => write_run min_length char n
  | c :: rest =>
      if String.eqb c char then nullify_short_runs min_length char (S n) rest
      else write_run min_length char n ++ c :: nullify_short_runs min_length char 0 rest
  end.

(** Positions [a], ..., [b - 1] of [l] all hold [c]. *)
Definition block (l : list string) (c : string) (a b : nat) : Prop :=
  forall j : nat, (a <= j < b)%nat -> l !! j = Some c.

(** ** Sample inputs *)

(** A check in the manner of [DimCoord]: [ValueError] unless the points are
    strictly increasing or strictly decreasing. *)
Fixpoint strictly_ordered (lt : float -> float -> bool) (points : list float)
  : bool :=
  match points with
  | a :: rest =>
      match rest with
      | b :: _ => lt a b && strictly_ordered lt rest
      | [] => true
      end
  | [] => true
  end.

Definition sample_check (points : list float) (standard_name units : string)
    (circular : bool) : outcome unit :=
  if strictly_ordered PrimFloat.ltb points
     || strictly_ordered (fun a b => PrimFloat.ltb b a) points
  then Return tt
  else Raise (PyException "ValueError"
                "The points array must be strictly monotonic.").

(** A circularity test that raises on an empty array and says no otherwise. *)
Definition sample_is_circular (points : list float) (modulus : float)
  : outcome bool :=
  match points with
  | [] => Raise (PyException "IndexError" "index out of bounds")
  | _ :: _ => Return false
  end.

(** A GRIB2 conversion of a value to degrees: [value * basic_angle /
    subdivisions]. *)
Definition sample_degrees (basic_angle subdivisions value : Z) : outcome float :=
  match float_of_int value, float_of_int basic_angle, float_of_int subdivisions with
  | Return v, Return a, Return d => Return (PrimFloat.div (PrimFloat.mul v a) d)
  | Raise e, _, _ => Raise e
  | _, Raise e, _ => Raise e
  | _, _, Raise e => Raise e
  end.

(** One choice of the outside names: millidegrees (the binary64 value nearest
    to 0.001) for the GRIB1 factor, the circularity test and the constructor
    check above, the regular latitude-longitude builder for every GRIB1 grid
    section, and the GRIB2 converter of the specification. *)
Definition sample_builder_names : Collaborators :=
  {| _GRID_ACCURACY_IN_DEGREES_GRIB1 := 0x1.0624dd2f1a9fcp-10%float;
     _is_circular := sample_is_circular;
     DimCoord_check := sample_check;
     grid_definition_section_grib1 := fun _ => ret tt;
     grib2_convert := fun _ => ret tt;
     grib2_degrees := sample_degrees |}.

Definition sample_collaborators : Collaborators :=
  {| _GRID_ACCURACY_IN_DEGREES_GRIB1 := 0x1.0624dd2f1a9fcp-10%float;
     _is_circular := sample_is_circular;
     DimCoord_check := sample_check;
     grid_definition_section_grib1 :=
       @grid_definition_template_0 sample_builder_names;
     grib2_convert := @grib2_convert_spec sample_builder_names;
     grib2_degrees := sample_degrees |}.

(** A 4 x 3 regular grid, one degree apart, first point at 0E 90N, with the
    given scanning mode. *)
Definition sample_section (mode : Z) : GridSection :=
  {| PLPresent := 0; scanningMode := mode;
     iDirectionIncrement := 1000; longitudeOfFirstGridPoint := 0; Ni := 4;
     jDirectionIncrement := 1000; latitudeOfFirstGridPoint := 90000; Nj := 3 |}.

(** The same grid as a GRIB2 section: template 0, increments and offsets in
    units of 1/1000 degree. *)
Definition sample_section_3 (mode : Z) : Grib2GridSection :=
  {| grid := sample_section mode; template := 0;
     basic_angle := 1; subdivisions := 1000 |}.

Definition sample_field (edition : Z) (code : string) (mode : Z) : Field :=
  {| sections_0 := mkSection0 edition;
     sections_1 := mkSection1 code;
     sections_2 := sample_section mode;
     sections_3 := sample_section_3 mode |}.

(** The same grid flagged as quasi-regular. *)
Definition reduced_section : GridSection :=
  {| PLPresent := 1; scanningMode := 0;
     iDirectionIncrement := 1000; longitudeOfFirstGridPoint := 0; Ni := 4;
     jDirectionIncrement := 1000; latitudeOfFirstGridPoint := 90000; Nj := 3 |}.

Definition reduced_field : Field :=
  {| sections_0 := mkSection0 1;
     sections_1 := mkSection1 "ecmf";
     sections_2 := reduced_section;
     sections_3 := sample_section_3 0 |}.

Definition empty_store : Store := mkStore [] initial_metadata.

(** * Properties *)

(** ** Bit masks *)

(** Testing an integer against a one-bit mask reads that bit. *)
Lemma truthy_land_pow2 (n k : Z) :
  0 <= k -> truthy (Z.land n (2 ^ k)) = Z.testbit n k.
Proof.
  intros Hk. unfold truthy.
  destruct (Z.testbit n k) eqn:Hbit.
  - assert (Hne : Z.land n (2 ^ k) <> 0).
    { intros Hz.
      assert (Hb : Z.testbit (Z.land n (2 ^ k)) k = true).
      { rewrite Z.land_spec, Hbit, Z.pow2_bits_true by lia. reflexivity. }
      rewrite Hz, Z.bits_0 in Hb. discriminate. }
    apply Z.eqb_neq in Hne. rewrite Hne. reflexivity.
  - assert (Hz : Z.land n (2 ^ k) = 0).
    { apply Z.bits_inj'. intros i Hi.
      rewrite Z.land_spec, Z.bits_0, Z.pow2_bits_eqb by lia.
      destruct (Z.eqb_spec k i) as [->|_].
      - rewrite Hbit. reflexivity.
      - apply andb_false_r. }
    rewrite Hz. reflexivity.
Qed.

Lemma truthy_land_0x80 n : truthy (Z.land n 0x80) = Z.testbit n 7.
Proof. apply (truthy_land_pow2 n 7). lia. Qed.

Lemma truthy_land_0x40 n : truthy (Z.land n 0x40) = Z.testbit n 6.
Proof. apply (truthy_land_pow2 n 6). lia. Qed.

Lemma truthy_land_0x20 n : truthy (Z.land n 0x20) = Z.testbit n 5.
Proof. apply (truthy_land_pow2 n 5). lia. Qed.

Lemma truthy_land_0x10 n : truthy (Z.land n 0x10) = Z.testbit n 4.
Proof. apply (truthy_land_pow2 n 4). lia. Qed.

(** Masking with 0xF0 keeps bits 4 to 7. *)
Lemma testbit_land_0xF0 (n i : Z) :
  4 <= i <= 7 -> Z.testbit (Z.land n 0xF0) i = Z.testbit n i.
Proof.
  intros Hi. rewrite Z.land_spec.
  assert (Hcases : i = 4 \/ i = 5 \/ i = 6 \/ i = 7) by lia.
  destruct Hcases as [-> | [-> | [-> | ->]]]; apply andb_true_r.
Qed.

(** [scanning_mode] in terms of the bits of its argument. *)
Lemma scanning_mode_bits (flags : Z) :
  scanning_mode flags =
    if Z.testbit flags 4 then
      Raise (PyException "NameError"
               "global name 'TranslationError' is not defined")
    else
      Return (mkScanningMode (Z.testbit flags 7) (Z.testbit flags 6)
                (Z.testbit flags 5) false).
Proof.
  unfold scanning_mode.
  rewrite truthy_land_0x80, truthy_land_0x40, truthy_land_0x20,
    truthy_land_0x10.
  destruct (Z.testbit flags 4); reflexivity.
Qed.

(** C3: with bit 0x10 of the flags set, as for flags 0x10, [scanning_mode]
    does not raise [TranslationError]: the name is unbound in [_common.py],
    so the [raise] statement raises [NameError], for every such flags value.
    With the bit clear it returns the tuple (bit 0x80, bit 0x40, bit 0x20,
    false). *)
Theorem scanning_mode_alternative_name_error :
  scanning_mode 0x10
  = Raise (PyException "NameError"
             "global name 'TranslationError' is not defined")
  /\ (forall msg, scanning_mode 0x10 <> Raise (TranslationError msg))
  /\ (forall flags,
        Z.land flags 0x10 <> 0 ->
        scanning_mode flags
        = Raise (PyException "NameError"
                   "global name 'TranslationError' is not defined"))
  /\ (forall flags,
        Z.land flags 0x10 = 0 ->
        scanning_mode flags
        = Return {| i_negative := negb (Z.land flags 0x80 =? 0);
                    j_positive := negb (Z.land flags 0x40 =? 0);
                    j_consecutive := negb (Z.land flags 0x20 =? 0);
                    i_alternative := false |}).
Proof.
  split; [reflexivity|]. split; [discriminate|]. split.
  - intros flags Hset. unfold scanning_mode, truthy.
    apply Z.eqb_neq in Hset. rewrite Hset. reflexivity.
  - intros flags Hclear. unfold scanning_mode, truthy.
    rewrite Hclear. reflexivity.
Qed.

(** C8: [resolution_flags] computes the three flags but does not return them:
    for flags 0x20 (i increments given) the call evaluates to [None], not to
    the tuple (true, false, false). *)
Theorem resolution_flags_returns_nothing :
  resolution_flags 0x20 = None
  /\ resolution_flags 0x20 <> Some (mkResolutionFlags true false false).
Proof. split; [reflexivity | discriminate]. Qed.

(** The result is [None] for every flags value. *)
Lemma resolution_flags_none (flags : Z) : resolution_flags flags = None.
Proof. reflexivity. Qed.

(** ** The dispatcher *)

(** The numeral [str] prints reads back, as a decimal numeral, as the integer
    printed. *)
Lemma str_reads_back (n : Z) :
  option_map Z.of_int (NilZero.int_of_string (str n)) = Some n.
Proof.
  unfold str.
  assert (Hnorm : Z.to_int n <> Decimal.Pos Decimal.Nil
                  /\ Z.to_int n <> Decimal.Neg Decimal.Nil).
  { destruct n as [|p|p]; cbn; split; try discriminate;
      intros Hnil; injection Hnil as Hnil;
      exact (DecimalPos.Unsigned.to_uint_nonnil p Hnil). }
  destruct Hnorm as (Hpos & Hneg).
  rewrite (NilZero.isi _ Hpos Hneg). cbn [option_map].
  rewrite DecimalZ.of_to. reflexivity.
Qed.

Lemma str_inj (n m : Z) : str n = str m -> n = m.
Proof.
  intros Heq. assert (Hn := str_reads_back n). rewrite Heq, str_reads_back in Hn.
  injection Hn as ->. reflexivity.
Qed.

(** C1: on an edition 1 message [convert] runs [grib1_convert], and on an
    edition 2 message [grib2_convert], on the freshly initialised metadata:
    what the converter raises, [convert] raises, and when it returns,
    [convert] returns the nine metadata values as the converter left them.
    For any other edition number [convert] raises [TranslationError] with the
    message "GRIB edition <n> is not supported", where <n> is a decimal
    numeral that reads back as the edition number ("GRIB edition 3 is not
    supported" for 3); it returns no metadata and allocates nothing. *)
Theorem convert_by_edition `{Collaborators} (field : Field) (heap : list GeogCS) :
  (editionNumber (sections_0 field) = 1 ->
   (forall s',
      grib1_convert field
        (mkStore heap (mkMetadata [] [] None None None ∅ [] [] []))
      = (Return tt, s') ->
      convert field heap
      = (Return
           (ConversionMetadata.make
              (factories (metadata s')) (references (metadata s'))
              (standard_name (metadata s')) (long_name (metadata s'))
              (units (metadata s')) (attributes (metadata s'))
              (cell_methods (metadata s')) (dim_coords_and_dims (metadata s'))
              (aux_coords_and_dims (metadata s'))),
         cs_heap s'))
   /\ (forall e s',
         grib1_convert field
           (mkStore heap (mkMetadata [] [] None None None ∅ [] [] []))
         = (Raise e, s') ->
         convert field heap = (Raise e, cs_heap s')))
  /\ (editionNumber (sections_0 field) = 2 ->
      (forall s',
         grib2_convert field
           (mkStore heap (mkMetadata [] [] None None None ∅ [] [] []))
         = (Return tt, s') ->
         convert field heap
         = (Return
              (ConversionMetadata.make
                 (factories (metadata s')) (references (metadata s'))
                 (standard_name (metadata s')) (long_name (metadata s'))
                 (units (metadata s')) (attributes (metadata s'))
                 (cell_methods (metadata s')) (dim_coords_and_dims (metadata s'))
                 (aux_coords_and_dims (metadata s'))),
            cs_heap s'))
      /\ (forall e s',
            grib2_convert field
              (mkStore heap (mkMetadata [] [] None None None ∅ [] [] []))
            = (Raise e, s') ->
            convert field heap = (Raise e, cs_heap s')))
  /\ (editionNumber (sections_0 field) <> 1 ->
      editionNumber (sections_0 field) <> 2 ->
      exists numeral : string,
        convert field heap
        = (Raise (TranslationError
                    ("GRIB edition " ++ numeral ++ " is not supported")),
           heap)
        /\ option_map Z.of_int (NilZero.int_of_string numeral)
           = Some (editionNumber (sections_0 field))
        /\ forall cm heap', convert field heap <> (Return cm, heap'))
  /\ (editionNumber (sections_0 field) = 3 ->
      convert field heap
      = (Raise (TranslationError "GRIB edition 3 is not supported"), heap)).
Proof.
  unfold convert.
  split; [|split; [|split]].
  - intros ->. cbn [Z.eqb Pos.eqb]. split.
    + intros s' Hrun. unfold initial_metadata. rewrite Hrun. reflexivity.
    + intros e s' Hrun. unfold initial_metadata. rewrite Hrun. reflexivity.
  - intros ->. cbn [Z.eqb Pos.eqb]. split.
    + intros s' Hrun. unfold initial_metadata. rewrite Hrun. reflexivity.
    + intros e s' Hrun. unfold initial_metadata. rewrite Hrun. reflexivity.
  - intros Hn1 Hn2. apply Z.eqb_neq in Hn1, Hn2. rewrite Hn1, Hn2.
    exists (str (editionNumber (sections_0 field))).
    split; [reflexivity|]. split; [apply str_reads_back | discriminate].
  - intros ->. reflexivity.
Qed.

(** ** Arrays *)

(** ** Arrays *)

(** ** Arrays *)

Lemma lookup_map {A B} (f : A -> B) (l : list A) (k : nat) :
  map f l !! k = f <$> (l !! k).
Proof.
  revert k. induction l as [|a l IH]; intros [|k]; simpl; auto.
Qed.

Lemma length_arange (n : Z) : length (arange n) = Z.to_nat n.
Proof. unfold arange. rewrite length_map, length_seq. reflexivity. Qed.

Lemma lookup_arange (n : Z) (k : nat) :
  (k < Z.to_nat n)%nat -> arange n !! k = Some (float_of_Z (Z.of_nat k)).
Proof.
  intros Hk. unfold arange.
  rewrite lookup_map, lookup_seq_lt by exact Hk. reflexivity.
Qed.

(** The points [np.arange(n) * inc * direction + offset]: there are [n] of
    them, and the k-th is [k * inc * direction + offset]. *)
Lemma length_points (n : Z) (inc direction offset : float) :
  length (array_add (array_mul (array_mul (arange n) inc) direction) offset)
  = Z.to_nat n.
Proof.
  unfold array_add, array_mul. rewrite !length_map. apply length_arange.
Qed.

Lemma lookup_points (n : Z) (inc direction offset : float) (k : nat) :
  (k < Z.to_nat n)%nat ->
  array_add (array_mul (array_mul (arange n) inc) direction) offset !! k
  = Some (PrimFloat.add
            (PrimFloat.mul (PrimFloat.mul (float_of_Z (Z.of_nat k)) inc)
               direction)
            offset).
Proof.
  intros Hk. unfold array_add, array_mul.
  rewrite !lookup_map, lookup_arange by exact Hk. reflexivity.
Qed.

(** ** The regular latitude-longitude builder *)

Lemma float_of_int_Return (n : Z) (f : float) :
  float_of_int n = Return f -> f = float_of_Z n.
Proof.
  unfold float_of_int.
  destruct (binary_normalize prec emax n 0 false); intros Hf;
    try discriminate; injection Hf as <-; reflexivity.
Qed.

(** The builder allocates the coordinate system, makes the calls that may
    raise, and only then appends the latitude entry and the longitude entry:
    a raise leaves the metadata as it was. *)
Lemma builder_run `{Collaborators} (section : GridSection) (s : Store) :
  grid_definition_template_0 section s
  = match builder_checks section with
    | Return (scan, circular) =>
        (Return tt, built_store section scan circular s)
    | Raise e =>
        (Raise e, mkStore (cs_heap s ++ [mkGeogCS 6371229]) (metadata s))
    end.
Proof.
  unfold grid_definition_template_0, builder_checks, built_store, bind, lift,
    raise, new_GeogCS, append_dim_coord, and_then, int_mul_float, new_DimCoord,
    longitude_points, latitude_points.
  cbn [cs_heap metadata].
  destruct (truthy (PLPresent section)); [reflexivity|].
  destruct (scanning_mode (scanningMode section)) as [scan|e]; [|reflexivity].
  destruct (float_of_int (iDirectionIncrement section)) as [xi|e] eqn:Hxi;
    [|reflexivity].
  apply float_of_int_Return in Hxi. subst xi.
  destruct (float_of_int (longitudeOfFirstGridPoint section)) as [xo|e] eqn:Hxo;
    [|reflexivity].
  apply float_of_int_Return in Hxo. subst xo.
  match goal with
  | |- context [_is_circular ?pts ?m] =>
      destruct (_is_circular pts m) as [circular|e]; [|reflexivity]
  end.
  destruct (float_of_int (jDirectionIncrement section)) as [yi|e] eqn:Hyi;
    [|reflexivity].
  apply float_of_int_Return in Hyi. subst yi.
  destruct (float_of_int (latitudeOfFirstGridPoint section)) as [yo|e] eqn:Hyo;
    [|reflexivity].
  apply float_of_int_Return in Hyo. subst yo.
  match goal with
  | |- context [DimCoord_check ?pts "latitude" ?u ?c] =>
      destruct (DimCoord_check pts "latitude" u c) as [[]|e]; [|reflexivity]
  end.
  match goal with
  | |- context [DimCoord_check ?pts "longitude" ?u ?c] =>
      destruct (DimCoord_check pts "longitude" u c) as [[]|e]; [|reflexivity]
  end.
  destruct (j_consecutive scan); cbn [cs_heap metadata dim_coords_and_dims
    factories references standard_name long_name units attributes cell_methods
    aux_coords_and_dims]; rewrite <- app_assoc; reflexivity.
Qed.

(** What the checks having passed says about the section and the outside
    names. *)
Lemma builder_checks_Return `{Collaborators} (section : GridSection)
    (scan : ScanningMode) (circular : bool) :
  builder_checks section = Return (scan, circular) ->
  PLPresent section = 0
  /\ scanning_mode (scanningMode section) = Return scan
  /\ _is_circular (longitude_points section scan) 360%float = Return circular.
Proof.
  unfold builder_checks, and_then, truthy. intros Hchecks.
  destruct (Z.eqb_spec (PLPresent section) 0) as [HPL|HPL];
    cbn [negb] in Hchecks; [|discriminate].
  split; [exact HPL|].
  destruct (scanning_mode (scanningMode section)) as [scan0|e] eqn:Hscan;
    [|discriminate].
  destruct (float_of_int (iDirectionIncrement section)); [|discriminate].
  destruct (float_of_int (longitudeOfFirstGridPoint section)); [|discriminate].
  destruct (_is_circular (longitude_points section scan0) 360%float)
    as [circular0|e] eqn:Hcirc; [|discriminate].
  destruct (float_of_int (jDirectionIncrement section)); [|discriminate].
  destruct (float_of_int (latitudeOfFirstGridPoint section)); [|discriminate].
  destruct (DimCoord_check (latitude_points section scan0) _ _ _);
    [|discriminate].
  destruct (DimCoord_check (longitude_points section scan0) _ _ _);
    [|discriminate].
  injection Hchecks as <- <-. split; [reflexivity | exact Hcirc].
Qed.

(** The builder raises on a quasi-regular grid before it decodes the
    scanning mode or calls anything else. *)
(** The builder first allocates the coordinate system, then raises on a
    quasi-regular grid without touching the metadata. *)
Lemma builder_quasi_regular `{Collaborators} (section : GridSection) (s : Store) :
  PLPresent section <> 0 ->
  grid_definition_template_0 section s
  = (Raise (TranslationError
              "Grid definition section 2 contains unsupported quasi-regular grid"),
     mkStore (cs_heap s ++ [mkGeogCS 6371229]) (metadata s)).
Proof.
  intros HPL. rewrite builder_run. unfold builder_checks, truthy.
  apply Z.eqb_neq in HPL. rewrite HPL. reflexivity.
Qed.

(** ... and raises what [scanning_mode] raises, again before any append. *)
(** ... and raises what [scanning_mode] raises, again before any append. *)
Lemma builder_scanning_raises `{Collaborators} (section : GridSection) (s : Store) e :
  PLPresent section = 0 ->
  scanning_mode (scanningMode section) = Raise e ->
  grid_definition_template_0 section s
  = (Raise e, mkStore (cs_heap s ++ [mkGeogCS 6371229]) (metadata s)).
Proof.
  intros HPL Hscan. rewrite builder_run.
  unfold builder_checks, truthy, and_then. rewrite HPL, Hscan. reflexivity.
Qed.

(** A return means the checks passed, and gives the store. *)
Lemma builder_return_inv `{Collaborators} (section : GridSection) (s s' : Store) :
  grid_definition_template_0 section s = (Return tt, s') ->
  exists scan circular,
    builder_checks section = Return (scan, circular)
    /\ s' = built_store section scan circular s.
Proof.
  rewrite builder_run. intros Hrun.
  destruct (builder_checks section) as [[scan circular]|e]; [|discriminate].
  injection Hrun as <-. exists scan, circular. split; reflexivity.
Qed.

(** The builder leaves the attributes alone. *)
(** The builder leaves the attributes alone. *)
Lemma builder_keeps_attributes `{Collaborators} (section : GridSection) (s : Store) :
  attributes (metadata (grid_definition_template_0 section s).2)
  = attributes (metadata s).
Proof.
  rewrite builder_run.
  destruct (builder_checks section) as [[scan circular]|e]; reflexivity.
Qed.

Lemma float_of_direction (b : bool) :
  float_of_Z (if b then -1 else 1) = (if b then (-1)%float else 1%float).
Proof. destruct b; vm_compute; reflexivity. Qed.

Lemma float_of_direction' (b : bool) :
  float_of_Z (if b then 1 else -1) = (if b then 1%float else (-1)%float).
Proof. destruct b; vm_compute; reflexivity. Qed.

(** C2: whenever the builder returns, which takes the quasi-regular
    indicator unset and scanning-mode bit 0x10 clear, the longitude
    coordinate it appends has [Ni] points, the k-th being
    [k * (iDirectionIncrement * scale) * direction
     + longitudeOfFirstGridPoint * scale]
    in binary64 arithmetic, products taken in the order the code takes them,
    with direction -1 if bit 0x80 (i_negative) is set and +1 otherwise; the
    latitude coordinate likewise over [Nj], with direction +1 if bit 0x40
    (j_positive) is set and -1 otherwise.  When the scaled increment is 1.0,
    the scaled offset 0.0, [Ni] is 4 and i_negative is set, the longitude
    points are [0, -1, -2, -3]. *)
Theorem builder_points `{Collaborators} (section : GridSection) (s s' : Store) :
  grid_definition_template_0 section s = (Return tt, s') ->
  PLPresent section = 0
  /\ Z.land (scanningMode section) 0x10 = 0
  /\ exists y y_dim x x_dim,
       dim_coords_and_dims (metadata s')
       = dim_coords_and_dims (metadata s) ++ [(y, y_dim); (x, x_dim)]
       /\ DimCoord.standard_name y = "latitude"
       /\ DimCoord.standard_name x = "longitude"
       /\ length (DimCoord.points x) = Z.to_nat (Ni section)
       /\ (forall k : nat, (k < Z.to_nat (Ni section))%nat ->
           DimCoord.points x !! k
           = Some (PrimFloat.add
                     (PrimFloat.mul
                        (PrimFloat.mul (float_of_Z (Z.of_nat k))
                           (PrimFloat.mul (float_of_Z (iDirectionIncrement section))
                              _GRID_ACCURACY_IN_DEGREES_GRIB1))
                        (if negb (Z.land (scanningMode section) 0x80 =? 0)
                         then (-1)%float else 1%float))
                     (PrimFloat.mul (float_of_Z (longitudeOfFirstGridPoint section))
                        _GRID_ACCURACY_IN_DEGREES_GRIB1)))
       /\ length (DimCoord.points y) = Z.to_nat (Nj section)
       /\ (forall k : nat, (k < Z.to_nat (Nj section))%nat ->
           DimCoord.points y !! k
           = Some (PrimFloat.add
                     (PrimFloat.mul
                        (PrimFloat.mul (float_of_Z (Z.of_nat k))
                           (PrimFloat.mul (float_of_Z (jDirectionIncrement section))
                              _GRID_ACCURACY_IN_DEGREES_GRIB1))
                        (if negb (Z.land (scanningMode section) 0x40 =? 0)
                         then 1%float else (-1)%float))
                     (PrimFloat.mul (float_of_Z (latitudeOfFirstGridPoint section))
                        _GRID_ACCURACY_IN_DEGREES_GRIB1)))
       /\ (PrimFloat.mul (float_of_Z (iDirectionIncrement section))
             _GRID_ACCURACY_IN_DEGREES_GRIB1 = 1%float ->
           PrimFloat.mul (float_of_Z (longitudeOfFirstGridPoint section))
             _GRID_ACCURACY_IN_DEGREES_GRIB1 = 0%float ->
           Ni section = 4 ->
           Z.land (scanningMode section) 0x80 <> 0 ->
           DimCoord.points x = [0; -1; -2; -3]%float).
Proof.
  intros Hrun.
  destruct (builder_return_inv section s s' Hrun)
    as (scan & circular & Hchecks & ->).
  destruct (builder_checks_Return section scan circular Hchecks)
    as (HPL & Hscan & _).
  assert (Hclear : Z.land (scanningMode section) 0x10 = 0).
  { destruct (Z.eq_dec (Z.land (scanningMode section) 0x10) 0) as [Hz|Hnz];
      [exact Hz|].
    exfalso. unfold scanning_mode, truthy in Hscan.
    apply Z.eqb_neq in Hnz. rewrite Hnz in Hscan. discriminate. }
  assert (Hbits : scan = mkScanningMode
                           (negb (Z.land (scanningMode section) 0x80 =? 0))
                           (negb (Z.land (scanningMode section) 0x40 =? 0))
                           (negb (Z.land (scanningMode section) 0x20 =? 0))
                           false).
  { unfold scanning_mode, truthy in Hscan. rewrite Hclear in Hscan.
    cbn [Z.eqb negb] in Hscan. injection Hscan as <-. reflexivity. }
  split; [exact HPL|]. split; [exact Hclear|].
  eexists _, _, _, _.
  split; [reflexivity|].
  cbn [DimCoord.points DimCoord.standard_name].
  unfold longitude_points, latitude_points.
  rewrite float_of_direction, float_of_direction'.
  rewrite Hbits. cbn [i_negative j_positive].
  split; [reflexivity|]. split; [reflexivity|].
  split; [apply length_points|].
  split; [intros k Hk; apply lookup_points; exact Hk|].
  split; [apply length_points|].
  split; [intros k Hk; apply lookup_points; exact Hk|].
  intros Hinc Hoff HNi Hneg.
  apply Z.eqb_neq in Hneg. rewrite Hinc, Hoff, HNi, Hneg.
  vm_compute. reflexivity.
Qed.

Lemma builder_points_witness :
  PLPresent (sample_section 0x80) = 0
  /\ Z.land (scanningMode (sample_section 0x80)) 0x10 = 0
  /\ exists y y_dim x x_dim,
       [(DimCoord.make [90; 89; 88]%float "latitude" "degrees" (Some 0%nat) false, 0);
        (DimCoord.make [0; -1; -2; -3]%float "longitude" "degrees" (Some 0%nat) false, 1)]
       = [] ++ [(y, y_dim); (x, x_dim)]
       /\ DimCoord.points x = [0; -1; -2; -3]%float
       /\ DimCoord.points y = [90; 89; 88]%float.
Proof.
  destruct (@builder_points sample_collaborators (sample_section 0x80)
              empty_store
              (mkStore [mkGeogCS 6371229]
                 (mkMetadata [] [] None None None ∅ []
                    [(DimCoord.make [90; 89; 88]%float "latitude" "degrees"
                        (Some 0%nat) false, 0);
                     (DimCoord.make [0; -1; -2; -3]%float "longitude" "degrees"
                        (Some 0%nat) false, 1)]
                    []))
              ltac:(vm_compute; reflexivity))
    as (HPL & Hclear & y & y_dim & x & x_dim & Hdims & _).
  split; [exact HPL|]. split; [exact Hclear|].
  exists y, y_dim, x, x_dim.
  split; [exact Hdims|].
  cbn [app] in Hdims. injection Hdims as <- _ <- _. split; reflexivity.
Defined.

(** C6: when the builder returns, the latitude entry carries dimension 0 and
    the longitude entry dimension 1 if bit 0x20 (j_consecutive) of the
    scanning mode is clear, and latitude 1, longitude 0 if it is set. *)
Theorem builder_dimensions `{Collaborators} (section : GridSection) (s s' : Store) :
  grid_definition_template_0 section s = (Return tt, s') ->
  exists y y_dim x x_dim,
    dim_coords_and_dims (metadata s')
    = dim_coords_and_dims (metadata s) ++ [(y, y_dim); (x, x_dim)]
    /\ DimCoord.standard_name y = "latitude"
    /\ DimCoord.standard_name x = "longitude"
    /\ (Z.land (scanningMode section) 0x20 = 0 -> y_dim = 0 /\ x_dim = 1)
    /\ (Z.land (scanningMode section) 0x20 <> 0 -> y_dim = 1 /\ x_dim = 0).
Proof.
  intros Hrun.
  destruct (builder_return_inv section s s' Hrun)
    as (scan & circular & Hchecks & ->).
  destruct (builder_checks_Return section scan circular Hchecks)
    as (HPL & Hscan & _).
  eexists _, _, _, _.
  split; [reflexivity|]. split; [reflexivity|]. split; [reflexivity|].
  assert (Hj : j_consecutive scan = Z.testbit (scanningMode section) 5).
  { rewrite scanning_mode_bits in Hscan.
    destruct (Z.testbit (scanningMode section) 4); [discriminate|].
    injection Hscan as <-. reflexivity. }
  rewrite Hj, <- truthy_land_0x20. unfold truthy.
  split.
  - intros ->. split; reflexivity.
  - intros Hset. apply Z.eqb_neq in Hset. rewrite Hset. split; reflexivity.
Qed.

Lemma builder_dimensions_witness :
  exists y y_dim x x_dim,
    [(DimCoord.make [90; 89; 88]%float "latitude" "degrees" (Some 0%nat) false, 1);
     (DimCoord.make [0; 1; 2; 3]%float "longitude" "degrees" (Some 0%nat) false, 0)]
    = [] ++ [(y, y_dim); (x, x_dim)]
    /\ DimCoord.standard_name y = "latitude"
    /\ DimCoord.standard_name x = "longitude"
    /\ (Z.land 0x20 0x20 = 0 -> y_dim = 0 /\ x_dim = 1)
    /\ (Z.land 0x20 0x20 <> 0 -> y_dim = 1 /\ x_dim = 0).
Proof.
  apply (@builder_dimensions sample_collaborators (sample_section 0x20)
           empty_store
           (mkStore [mkGeogCS 6371229]
              (mkMetadata [] [] None None None ∅ [] 
                 [(DimCoord.make [90; 89; 88]%float "latitude" "degrees"
                     (Some 0%nat) false, 1);
                  (DimCoord.make [0; 1; 2; 3]%float "longitude" "degrees"
                     (Some 0%nat) false, 0)]
                 []))).
  vm_compute. reflexivity.
Defined.

Lemma testbit_lxor_0x20 (n i : Z) :
  Z.testbit (Z.lxor n 0x20) i
  = if i =? 5 then negb (Z.testbit n i) else Z.testbit n i.
Proof.
  rewrite Z.lxor_spec. change 0x20 with (2 ^ 5).
  destruct (Z_lt_le_dec i 0) as [Hneg|Hpos].
  - rewrite !Z.testbit_neg_r by lia.
    destruct (Z.eqb_spec i 5); [lia | reflexivity].
  - rewrite Z.pow2_bits_eqb by lia. rewrite (Z.eqb_sym 5 i).
    destruct (i =? 5).
    + apply xorb_true_r.
    + apply xorb_false_r.
Qed.

(** The checks on a section do not depend on bit 0x20 of its scanning mode,
    which only changes the decoded [j_consecutive]. *)
Lemma builder_checks_flip `{Collaborators} (section : GridSection)
    (scan : ScanningMode) (circular : bool) :
  builder_checks section = Return (scan, circular) ->
  builder_checks
    (with_scanningMode section (Z.lxor (scanningMode section) 0x20))
  = Return (mkScanningMode (i_negative scan) (j_positive scan)
              (negb (j_consecutive scan)) false,
            circular).
Proof.
  intros Hchecks.
  destruct (builder_checks_Return section scan circular Hchecks)
    as (HPL & Hscan & _).
  assert (Hscan' : scanning_mode (Z.lxor (scanningMode section) 0x20)
                   = Return (mkScanningMode (i_negative scan) (j_positive scan)
                               (negb (j_consecutive scan)) false)).
  { rewrite scanning_mode_bits in Hscan. rewrite scanning_mode_bits.
    rewrite !testbit_lxor_0x20. cbn [Z.eqb Pos.eqb].
    destruct (Z.testbit (scanningMode section) 4); [discriminate|].
    injection Hscan as <-. reflexivity. }
  unfold builder_checks, and_then in *.
  cbn [with_scanningMode PLPresent scanningMode iDirectionIncrement
       longitudeOfFirstGridPoint jDirectionIncrement latitudeOfFirstGridPoint].
  rewrite Hscan'. rewrite Hscan in Hchecks.
  destruct (truthy (PLPresent section)); [discriminate|].
  change (longitude_points
            (with_scanningMode section (Z.lxor (scanningMode section) 32))
            (mkScanningMode (i_negative scan) (j_positive scan)
               (negb (j_consecutive scan)) false))
    with (longitude_points section scan).
  change (latitude_points
            (with_scanningMode section (Z.lxor (scanningMode section) 32))
            (mkScanningMode (i_negative scan) (j_positive scan)
               (negb (j_consecutive scan)) false))
    with (latitude_points section scan).
  destruct (float_of_int (iDirectionIncrement section)); [|discriminate].
  destruct (float_of_int (longitudeOfFirstGridPoint section)); [|discriminate].
  destruct (_is_circular (longitude_points section scan) 360%float)
    as [circular0|e]; [|discriminate].
  destruct (float_of_int (jDirectionIncrement section)); [|discriminate].
  destruct (float_of_int (latitudeOfFirstGridPoint section)); [|discriminate].
  destruct (DimCoord_check (latitude_points section scan) _ _ _);
    [|discriminate].
  destruct (DimCoord_check (longitude_points section scan) _ _ _);
    [|discriminate].
  injection Hchecks as <-. reflexivity.
Qed.

(** C10: when the builder returns, the entry it appends first is the latitude
    coordinate's and the one it appends second the longitude coordinate's,
    whatever the scanning mode; with bit 0x20 (j_consecutive) of the scanning
    mode flipped the builder appends the same two coordinates in the same
    order and exchanges only the two dimension indices. *)
Theorem builder_latitude_first `{Collaborators} (section : GridSection) (s s' : Store) :
  grid_definition_template_0 section s = (Return tt, s') ->
  exists y y_dim x x_dim s'',
    dim_coords_and_dims (metadata s')
    = dim_coords_and_dims (metadata s) ++ [(y, y_dim); (x, x_dim)]
    /\ DimCoord.standard_name y = "latitude"
    /\ DimCoord.standard_name x = "longitude"
    /\ grid_definition_template_0
         (with_scanningMode section (Z.lxor (scanningMode section) 0x20)) s
       = (Return tt, s'')
    /\ dim_coords_and_dims (metadata s'')
       = dim_coords_and_dims (metadata s) ++ [(y, x_dim); (x, y_dim)].
Proof.
  intros Hrun.
  destruct (builder_return_inv section s s' Hrun)
    as (scan & circular & Hchecks & ->).
  pose proof (builder_checks_flip section scan circular Hchecks) as Hflip.
  eexists _, _, _, _, _.
  split; [reflexivity|]. split; [reflexivity|]. split; [reflexivity|].
  split; [rewrite builder_run, Hflip; reflexivity|].
  unfold built_store.
  cbn [metadata dim_coords_and_dims j_consecutive].
  destruct (j_consecutive scan); reflexivity.
Qed.

Lemma builder_latitude_first_witness :
  exists y y_dim x x_dim s'',
    [(DimCoord.make [90; 89; 88]%float "latitude" "degrees" (Some 0%nat) false, 0);
     (DimCoord.make [0; 1; 2; 3]%float "longitude" "degrees" (Some 0%nat) false, 1)]
    = [] ++ [(y, y_dim); (x, x_dim)]
    /\ DimCoord.standard_name y = "latitude"
    /\ DimCoord.standard_name x = "longitude"
    /\ @grid_definition_template_0 sample_collaborators
         (with_scanningMode (sample_section 0) (Z.lxor 0 0x20)) empty_store
       = (Return tt, s'')
    /\ dim_coords_and_dims (metadata s'') = [] ++ [(y, x_dim); (x, y_dim)].
Proof.
  apply (@builder_latitude_first sample_collaborators (sample_section 0)
           empty_store
           (mkStore [mkGeogCS 6371229]
              (mkMetadata [] [] None None None ∅ [] 
                 [(DimCoord.make [90; 89; 88]%float "latitude" "degrees"
                     (Some 0%nat) false, 0);
                  (DimCoord.make [0; 1; 2; 3]%float "longitude" "degrees"
                     (Some 0%nat) false, 1)]
                 []))).
  vm_compute. reflexivity.
Defined.

(** The circular flag of the longitude coordinate is what [_is_circular]
    returned on the longitude points and 360.0; the latitude coordinate is
    built without one. *)
Lemma builder_circular_flag `{Collaborators} (section : GridSection) (s s' : Store) :
  grid_definition_template_0 section s = (Return tt, s') ->
  exists y y_dim x x_dim,
    dim_coords_and_dims (metadata s')
    = dim_coords_and_dims (metadata s) ++ [(y, y_dim); (x, x_dim)]
    /\ _is_circular (DimCoord.points x) 360%float
       = Return (DimCoord.circular x)
    /\ DimCoord.circular y = false.
Proof.
  intros Hrun.
  destruct (builder_return_inv section s s' Hrun)
    as (scan & circular & Hchecks & ->).
  destruct (builder_checks_Return section scan circular Hchecks)
    as (_ & _ & Hcirc).
  eexists _, _, _, _. split; [reflexivity|]. split; [exact Hcirc | reflexivity].
Qed.


(** ** Through [grib1_convert] and [convert] *)

(** [grib1_convert] sets the centre attribute, if the code is in the table,
    and then hands the grid section on. *)
Lemma grib1_convert_run `{Collaborators} (field : Field) (s : Store) :
  grib1_convert field s
  = grid_definition_section_grib1 (sections_2 field)
      (match _CENTRES !! centre (sections_1 field) with
       | Some name =>
           mkStore (cs_heap s)
             (mkMetadata (factories (metadata s)) (references (metadata s))
                (standard_name (metadata s)) (long_name (metadata s))
                (units (metadata s))
                (<["centre" := name]> (attributes (metadata s)))
                (cell_methods (metadata s)) (dim_coords_and_dims (metadata s))
                (aux_coords_and_dims (metadata s)))
       | None => s
       end).
Proof.
  unfold grib1_convert, bind.
  destruct (_CENTRES !! centre (sections_1 field)); reflexivity.
Qed.

(** The centre table has the one key 'ecmf'. *)
Lemma _CENTRES_lookup (code : string) :
  _CENTRES !! code
  = if decide (code = "ecmf")
    then Some "European Centre for Medium Range Weather Forecasts"
    else None.
Proof.
  unfold _CENTRES. destruct (decide (code = "ecmf")) as [->|Hne].
  - apply lookup_singleton_eq.
  - apply lookup_singleton_ne. congruence.
Qed.

(** [convert] on a GRIB1 message whose grid section goes to the builder: the
    builder runs on the initial metadata with the centre attribute set. *)
Lemma convert_grib1_run `{Collaborators} (field : Field) (heap : list GeogCS) :
  editionNumber (sections_0 field) = 1 ->
  (forall s, grid_definition_section_grib1 (sections_2 field) s
             = grid_definition_template_0 (sections_2 field) s) ->
  convert field heap
  = conclude
      (grid_definition_template_0 (sections_2 field)
         (mkStore heap
            (mkMetadata [] [] None None None
               (match _CENTRES !! centre (sections_1 field) with
                | Some name => {[ "centre" := name ]}
                | None => ∅
                end)
               [] [] []))).
Proof.
  intros Hed Hroute. unfold convert. rewrite Hed. cbn [Z.eqb Pos.eqb].
  rewrite grib1_convert_run, Hroute.
  destruct (_CENTRES !! centre (sections_1 field)); reflexivity.
Qed.

(** What a return of the GRIB2 converter of the specification leaves: two
    more dim-coordinate entries, latitude then longitude, of [Nj] and [Ni]
    points, on one new coordinate system. *)
Lemma grib2_convert_spec_return `{Collaborators} (field : Field) (s s' : Store) :
  grib2_convert_spec field s = (Return tt, s') ->
  exists y y_dim x x_dim,
    dim_coords_and_dims (metadata s')
    = dim_coords_and_dims (metadata s) ++ [(y, y_dim); (x, x_dim)]
    /\ DimCoord.standard_name y = "latitude"
    /\ length (DimCoord.points y) = Z.to_nat (Nj (grid (sections_3 field)))
    /\ DimCoord.standard_name x = "longitude"
    /\ length (DimCoord.points x) = Z.to_nat (Ni (grid (sections_3 field)))
    /\ DimCoord.coord_system y = Some (length (cs_heap s))
    /\ DimCoord.coord_system x = Some (length (cs_heap s))
    /\ cs_heap s' = cs_heap s ++ [mkGeogCS 6371229].
Proof.
  unfold grib2_convert_spec, bind, lift, raise.
  set (s0 := (match _CENTRES !! centre (sections_1 field) with
              | Some name => set_attribute "centre" name
              | None => ret tt
              end) s).
  assert (Hs0 : exists s1, s0 = (Return tt, s1)
                           /\ cs_heap s1 = cs_heap s
                           /\ dim_coords_and_dims (metadata s1)
                              = dim_coords_and_dims (metadata s)).
  { unfold s0. destruct (_CENTRES !! centre (sections_1 field));
      eexists; (split; [reflexivity|]); split; reflexivity. }
  destruct Hs0 as (s1 & -> & Hheap & Hdims).
  destruct (scanning_mode (scanningMode (grid (sections_3 field))))
    as [scan|e]; [|discriminate].
  destruct (template (sections_3 field) =? 0); [|discriminate].
  unfold grib2_regular_ll, bind, lift, raise, new_GeogCS, append_dim_coord,
    new_DimCoord.
  cbn [cs_heap metadata].
  destruct (truthy (PLPresent (grid (sections_3 field)))); [discriminate|].
  destruct (grib2_degrees _ _ (iDirectionIncrement _)); [|discriminate].
  destruct (grib2_degrees _ _ (longitudeOfFirstGridPoint _)); [|discriminate].
  destruct (grib2_degrees _ _ (jDirectionIncrement _)); [|discriminate].
  destruct (grib2_degrees _ _ (latitudeOfFirstGridPoint _)); [|discriminate].
  destruct (_is_circular _ _) as [circular|e]; [|discriminate].
  destruct (DimCoord_check _ "latitude" _ _); [|discriminate].
  destruct (DimCoord_check _ "longitude" _ _); [|discriminate].
  rewrite <- Hheap, <- Hdims.
  destruct (j_consecutive scan); intros Hrun; injection Hrun as <-;
    cbn [cs_heap metadata dim_coords_and_dims];
    rewrite <- app_assoc; eexists _, _, _, _;
    (split; [reflexivity|]);
    cbn [DimCoord.standard_name DimCoord.points DimCoord.coord_system];
    (split; [reflexivity|]); (split; [apply length_points|]);
    (split; [reflexivity|]); (split; [apply length_points|]);
    (split; [reflexivity|]); split; reflexivity.
Qed.

(** C4: for a regular latitude-longitude message that [convert] accepts, of
    edition 1 with its grid section going to the builder, or of edition 2
    with [grib2_convert] being the GRIB2 converter of the specification, the
    returned metadata has exactly two dim-coordinate entries: a latitude
    coordinate with [Nj] points and a longitude coordinate with [Ni] points
    (none for a negative count), both referring to one and the same
    coordinate-system object, allocated during the call, a [GeogCS] of radius
    6371229. *)
Theorem convert_regular_ll_coords `{Collaborators} (field : Field)
    (heap heap' : list GeogCS) (cm : ConversionMetadata.t) :
  (editionNumber (sections_0 field) = 1
   /\ (forall s, grid_definition_section_grib1 (sections_2 field) s
                 = grid_definition_template_0 (sections_2 field) s)
   \/ editionNumber (sections_0 field) = 2
      /\ (forall s, grib2_convert field s = grib2_convert_spec field s)) ->
  convert field heap = (Return cm, heap') ->
  exists y y_dim x x_dim cs,
    ConversionMetadata.dim_coords_and_dims cm = [(y, y_dim); (x, x_dim)]
    /\ DimCoord.standard_name y = "latitude"
    /\ Z.of_nat (length (DimCoord.points y))
       = Z.max 0 (Nj (if editionNumber (sections_0 field) =? 1
                      then sections_2 field
                      else grid (sections_3 field)))
    /\ DimCoord.standard_name x = "longitude"
    /\ Z.of_nat (length (DimCoord.points x))
       = Z.max 0 (Ni (if editionNumber (sections_0 field) =? 1
                      then sections_2 field
                      else grid (sections_3 field)))
    /\ DimCoord.coord_system y = Some cs
    /\ DimCoord.coord_system x = Some cs
    /\ heap' !! cs = Some (mkGeogCS 6371229)
    /\ heap !! cs = None.
Proof.
  assert (Hnew : forall h : list GeogCS,
             (h ++ [mkGeogCS 6371229]) !! length h = Some (mkGeogCS 6371229)).
  { intros h. rewrite lookup_app_r by reflexivity.
    replace (length h - length h)%nat with 0%nat by lia. reflexivity. }
  intros [(Hed & Hroute) | (Hed & Hspec)] Hconv.
  - rewrite (convert_grib1_run field heap Hed Hroute) in Hconv.
    rewrite Hed. cbn [Z.eqb Pos.eqb].
    rewrite builder_run in Hconv.
    destruct (builder_checks (sections_2 field)) as [[scan circular]|e];
      cbn [conclude] in Hconv; [|discriminate].
    injection Hconv as <- <-.
    exists (DimCoord.make (latitude_points (sections_2 field) scan)
              "latitude" "degrees" (Some (length heap)) false),
      (if j_consecutive scan then 1 else 0),
      (DimCoord.make (longitude_points (sections_2 field) scan)
         "longitude" "degrees" (Some (length heap)) circular),
      (if j_consecutive scan then 0 else 1), (length heap).
    cbn [DimCoord.standard_name DimCoord.points DimCoord.coord_system].
    split; [reflexivity|]. split; [reflexivity|].
    split; [unfold latitude_points; rewrite length_points; lia|].
    split; [reflexivity|].
    split; [unfold longitude_points; rewrite length_points; lia|].
    split; [reflexivity|]. split; [reflexivity|].
    split; [apply Hnew | apply lookup_ge_None_2; reflexivity].
  - unfold convert in Hconv. rewrite Hed in Hconv. cbn [Z.eqb Pos.eqb] in Hconv.
    rewrite Hed. cbn [Z.eqb Pos.eqb].
    rewrite Hspec in Hconv.
    destruct (grib2_convert_spec field (mkStore heap initial_metadata))
      as [[[]|e] s'] eqn:Hrun; cbn [conclude] in Hconv; [|discriminate].
    injection Hconv as <- <-.
    destruct (grib2_convert_spec_return field _ s' Hrun)
      as (y & y_dim & x & x_dim & Hdims & Hy & Hylen & Hx & Hxlen & Hycs
          & Hxcs & Hheap).
    cbn [cs_heap metadata initial_metadata dim_coords_and_dims app] in *.
    exists y, y_dim, x, x_dim, (length heap).
    cbn [_make ConversionMetadata.dim_coords_and_dims].
    split; [exact Hdims|]. split; [exact Hy|]. split; [lia|].
    split; [exact Hx|]. split; [lia|].
    split; [exact Hycs|]. split; [exact Hxcs|].
    rewrite Hheap.
    split; [apply Hnew | apply lookup_ge_None_2; reflexivity].
Qed.

Lemma convert_regular_ll_coords_witness :
  exists y y_dim x x_dim cs,
    [(DimCoord.make [90; 91; 92]%float "latitude" "degrees" (Some 0%nat) false, 1);
     (DimCoord.make [0; 1; 2; 3]%float "longitude" "degrees" (Some 0%nat) false, 0)]
    = [(y, y_dim); (x, x_dim)]
    /\ DimCoord.standard_name y = "latitude"
    /\ Z.of_nat (length (DimCoord.points y)) = Z.max 0 3
    /\ DimCoord.standard_name x = "longitude"
    /\ Z.of_nat (length (DimCoord.points x)) = Z.max 0 4
    /\ DimCoord.coord_system y = Some cs
    /\ DimCoord.coord_system x = Some cs
    /\ [mkGeogCS 6371229] !! cs = Some (mkGeogCS 6371229)
    /\ @nil GeogCS !! cs = None.
Proof.
  apply (@convert_regular_ll_coords sample_collaborators
           (sample_field 2 "kwbc" 0x60) [] [mkGeogCS 6371229]
           (ConversionMetadata.make [] [] None None None ∅ []
              [(DimCoord.make [90; 91; 92]%float "latitude" "degrees"
                  (Some 0%nat) false, 1);
               (DimCoord.make [0; 1; 2; 3]%float "longitude" "degrees"
                  (Some 0%nat) false, 0)]
              [])).
  - right. split; [reflexivity | intros s; reflexivity].
  - vm_compute. reflexivity.
Defined.

(** X21: for a GRIB1 message whose grid section goes to the regular
    latitude-longitude builder, the metadata [convert] returns has exactly two
    dim-coordinate entries: a latitude coordinate with [Nj] points and a
    longitude coordinate with [Ni] points (none for a negative count), both
    referring to one and the same coordinate-system object, allocated during
    the call, a [GeogCS] of radius 6371229. *)
Theorem convert_two_dim_coords `{Collaborators} (field : Field)
    (heap heap' : list GeogCS) (cm : ConversionMetadata.t) :
  editionNumber (sections_0 field) = 1 ->
  (forall s, grid_definition_section_grib1 (sections_2 field) s
             = grid_definition_template_0 (sections_2 field) s) ->
  convert field heap = (Return cm, heap') ->
  exists y y_dim x x_dim cs,
    ConversionMetadata.dim_coords_and_dims cm = [(y, y_dim); (x, x_dim)]
    /\ DimCoord.standard_name y = "latitude"
    /\ Z.of_nat (length (DimCoord.points y)) = Z.max 0 (Nj (sections_2 field))
    /\ DimCoord.standard_name x = "longitude"
    /\ Z.of_nat (length (DimCoord.points x)) = Z.max 0 (Ni (sections_2 field))
    /\ DimCoord.coord_system y = Some cs
    /\ DimCoord.coord_system x = Some cs
    /\ heap' !! cs = Some (mkGeogCS 6371229)
    /\ heap !! cs = None.
Proof.
  intros Hed Hroute Hconv.
  rewrite (convert_grib1_run field heap Hed Hroute) in Hconv.
  rewrite builder_run in Hconv.
  destruct (builder_checks (sections_2 field)) as [[scan circular]|e];
    cbn [conclude] in Hconv; [|discriminate].
  injection Hconv as <- <-.
  exists (DimCoord.make (latitude_points (sections_2 field) scan)
            "latitude" "degrees" (Some (length heap)) false),
    (if j_consecutive scan then 1 else 0),
    (DimCoord.make (longitude_points (sections_2 field) scan)
       "longitude" "degrees" (Some (length heap)) circular),
    (if j_consecutive scan then 0 else 1), (length heap).
  cbn [DimCoord.standard_name DimCoord.points DimCoord.coord_system].
  split; [reflexivity|]. split; [reflexivity|].
  split; [unfold latitude_points; rewrite length_points; lia|].
  split; [reflexivity|].
  split; [unfold longitude_points; rewrite length_points; lia|].
  split; [reflexivity|]. split; [reflexivity|].
  split.
  - cbn [cs_heap built_store]. rewrite lookup_app_r by reflexivity.
    replace (length heap - length heap)%nat with 0%nat by lia. reflexivity.
  - apply lookup_ge_None_2. reflexivity.
Qed.

Lemma convert_two_dim_coords_witness :
  exists y y_dim x x_dim cs,
    [(DimCoord.make [90; 89; 88]%float "latitude" "degrees" (Some 0%nat) false, 0);
     (DimCoord.make [0; 1; 2; 3]%float "longitude" "degrees" (Some 0%nat) false, 1)]
    = [(y, y_dim); (x, x_dim)]
    /\ DimCoord.standard_name y = "latitude"
    /\ Z.of_nat (length (DimCoord.points y)) = Z.max 0 3
    /\ DimCoord.standard_name x = "longitude"
    /\ Z.of_nat (length (DimCoord.points x)) = Z.max 0 4
    /\ DimCoord.coord_system y = Some cs
    /\ DimCoord.coord_system x = Some cs
    /\ [mkGeogCS 6371229] !! cs = Some (mkGeogCS 6371229)
    /\ @nil GeogCS !! cs = None.
Proof.
  apply (@convert_two_dim_coords sample_collaborators (sample_field 1 "ecmf" 0)
           [] [mkGeogCS 6371229]
           (ConversionMetadata.make [] [] None None None
              {[ "centre" := "European Centre for Medium Range Weather Forecasts" ]}
              [] 
              [(DimCoord.make [90; 89; 88]%float "latitude" "degrees"
                  (Some 0%nat) false, 0);
               (DimCoord.make [0; 1; 2; 3]%float "longitude" "degrees"
                  (Some 0%nat) false, 1)]
              [])).
  - reflexivity.
  - intros s. reflexivity.
  - vm_compute. reflexivity.
Defined.

(** C5: on a grid section whose quasi-regular indicator [PLPresent] is set
    the builder raises [TranslationError] ("Grid definition section 2 contains
    unsupported quasi-regular grid") and leaves the metadata as it found it,
    no coordinate appended; for a GRIB1 message with such a grid section,
    routed to the builder, [convert] raises that same error and returns no
    metadata. *)
Theorem quasi_regular_rejected `{Collaborators} (section : GridSection) (s : Store) :
  PLPresent section <> 0 ->
  (grid_definition_template_0 section s).1
  = Raise (TranslationError
             "Grid definition section 2 contains unsupported quasi-regular grid")
  /\ metadata (grid_definition_template_0 section s).2 = metadata s
  /\ forall (field : Field) (heap : list GeogCS),
       sections_2 field = section ->
       editionNumber (sections_0 field) = 1 ->
       (forall s0, grid_definition_section_grib1 section s0
                   = grid_definition_template_0 section s0) ->
       (convert field heap).1
       = Raise (TranslationError
                  "Grid definition section 2 contains unsupported quasi-regular grid").
Proof.
  intros HPL.
  split; [|split].
  - rewrite (builder_quasi_regular section s HPL). reflexivity.
  - rewrite (builder_quasi_regular section s HPL). reflexivity.
  - intros field heap Hsec Hed Hroute.
    unfold convert. rewrite Hed. cbn [Z.eqb Pos.eqb].
    rewrite grib1_convert_run, Hsec, Hroute.
    rewrite builder_quasi_regular by exact HPL. reflexivity.
Qed.

Lemma quasi_regular_rejected_witness :
  (@grid_definition_template_0 sample_collaborators reduced_section empty_store).1
  = Raise (TranslationError
             "Grid definition section 2 contains unsupported quasi-regular grid")
  /\ metadata (@grid_definition_template_0 sample_collaborators reduced_section
                 empty_store).2
     = initial_metadata
  /\ (@convert sample_collaborators reduced_field []).1
     = Raise (TranslationError
                "Grid definition section 2 contains unsupported quasi-regular grid").
Proof.
  destruct (@quasi_regular_rejected sample_collaborators reduced_section
              empty_store) as (Hraise & Hsame & Hconvert).
  - discriminate.
  - split; [exact Hraise|]. split; [exact Hsame|].
    apply (Hconvert reduced_field []).
    + reflexivity.
    + reflexivity.
    + intros s0. reflexivity.
Defined.

(** C9: in [grib1_convert], a centre code that is a key of the centre table
    ('ecmf' is the only one) puts the table's name under 'centre' in the
    attributes, "European Centre for Medium Range Weather Forecasts" for
    'ecmf'; any other code leaves the attributes as they were, and nothing
    raises before the grid section is handed on.  So the metadata [convert]
    returns for a GRIB1 message has 'centre' exactly when the code is in the
    table.  (The grid-section step is assumed not to touch the attributes.) *)
Theorem grib1_convert_centre `{Collaborators} (field : Field) (s : Store) :
  (forall s0,
     attributes (metadata (grid_definition_section_grib1 (sections_2 field) s0).2)
     = attributes (metadata s0)) ->
  (forall name,
     _CENTRES !! centre (sections_1 field) = Some name ->
     attributes (metadata (grib1_convert field s).2)
     = <["centre" := name]> (attributes (metadata s)))
  /\ (_CENTRES !! centre (sections_1 field) = None ->
      attributes (metadata (grib1_convert field s).2) = attributes (metadata s))
  /\ (centre (sections_1 field) = "ecmf" ->
      attributes (metadata (grib1_convert field s).2) !! "centre"
      = Some "European Centre for Medium Range Weather Forecasts")
  /\ (centre (sections_1 field) <> "ecmf" ->
      _CENTRES !! centre (sections_1 field) = None)
  /\ (forall e s1,
        grib1_convert field s = (Raise e, s1) ->
        exists s0,
          grid_definition_section_grib1 (sections_2 field) s0 = (Raise e, s1))
  /\ (forall heap cm heap',
        editionNumber (sections_0 field) = 1 ->
        convert field heap = (Return cm, heap') ->
        ConversionMetadata.attributes cm !! "centre"
        = _CENTRES !! centre (sections_1 field)).
Proof.
  intros Hframe.
  assert (Hattrs : forall s_in,
            attributes (metadata (grib1_convert field s_in).2)
            = match _CENTRES !! centre (sections_1 field) with
              | Some name => <["centre" := name]> (attributes (metadata s_in))
              | None => attributes (metadata s_in)
              end).
  { intros s_in. rewrite grib1_convert_run, Hframe.
    destruct (_CENTRES !! centre (sections_1 field)); reflexivity. }
  split; [|split; [|split; [|split; [|split]]]].
  - intros name Hname. rewrite Hattrs, Hname. reflexivity.
  - intros Hnone. rewrite Hattrs, Hnone. reflexivity.
  - intros Hcode. rewrite Hattrs, Hcode, _CENTRES_lookup.
    rewrite decide_True by reflexivity. apply lookup_insert_eq.
  - intros Hcode. rewrite _CENTRES_lookup, decide_False by exact Hcode.
    reflexivity.
  - intros e s1 Hraise. rewrite grib1_convert_run in Hraise.
    eexists. exact Hraise.
  - intros heap cm heap' Hed Hconv.
    unfold convert in Hconv. rewrite Hed in Hconv. cbn [Z.eqb Pos.eqb] in Hconv.
    specialize (Hattrs (mkStore heap initial_metadata)).
    destruct (grib1_convert field (mkStore heap initial_metadata))
      as [[[]|e] s1]; [|discriminate].
    cbn [conclude] in Hconv. injection Hconv as <- <-.
    cbn [_make ConversionMetadata.attributes]. cbn [snd] in Hattrs.
    rewrite Hattrs.
    destruct (_CENTRES !! centre (sections_1 field)).
    + apply lookup_insert_eq.
    + reflexivity.
Qed.

Lemma grib1_convert_centre_witness :
  attributes
    (metadata
       (@grib1_convert sample_collaborators (sample_field 1 "ecmf" 0)
          empty_store).2)
  !! "centre"
  = Some "European Centre for Medium Range Weather Forecasts"
  /\ attributes
       (metadata
          (@grib1_convert sample_collaborators (sample_field 1 "kwbc" 0)
             empty_store).2)
     = ∅.
Proof.
  split.
  - apply (@grib1_convert_centre sample_collaborators
             (sample_field 1 "ecmf" 0) empty_store).
    + intros s0. reflexivity.
    + reflexivity.
  - apply (@grib1_convert_centre sample_collaborators
             (sample_field 1 "kwbc" 0) empty_store).
    + intros s0. reflexivity.
    + vm_compute. reflexivity.
Defined.

(** ** The functions on sample inputs *)

(** ** The functions on sample inputs *)

Example scanning_mode_0x40 :
  scanning_mode 0x40 = Return (mkScanningMode false true false false).
Proof. reflexivity. Qed.

Example scanning_mode_0xE7 :
  scanning_mode 0xE7 = Return (mkScanningMode true true true false).
Proof. reflexivity. Qed.

Example scanning_mode_0x10 :
  scanning_mode 0x10
  = Raise (PyException "NameError"
             "global name 'TranslationError' is not defined").
Proof. reflexivity. Qed.

Example scanning_mode_minus_one :
  scanning_mode (-1)
  = Raise (PyException "NameError"
             "global name 'TranslationError' is not defined").
Proof. reflexivity. Qed.

Example projection_centre_0x80 :
  projection_centre 0x80 = mkProjectionCentre true false.
Proof. reflexivity. Qed.

Example millidegrees_1000 :
  PrimFloat.mul (float_of_Z 1000)
    (@_GRID_ACCURACY_IN_DEGREES_GRIB1 sample_collaborators) = 1%float.
Proof. vm_compute. reflexivity. Qed.

Example convert_edition_1 :
  @convert sample_collaborators (sample_field 1 "ecmf" 0x40) []
  = (Return
       (ConversionMetadata.make [] [] None None None
          {[ "centre" := "European Centre for Medium Range Weather Forecasts" ]}
          []
          [(DimCoord.make [90; 91; 92]%float "latitude" "degrees"
              (Some 0%nat) false, 0);
           (DimCoord.make [0; 1; 2; 3]%float "longitude" "degrees"
              (Some 0%nat) false, 1)]
          []),
     [mkGeogCS 6371229]).
Proof. vm_compute. reflexivity. Qed.

Example convert_edition_1_unknown_centre :
  ConversionMetadata.attributes
    match (@convert sample_collaborators (sample_field 1 "kwbc" 0x40) []).1 with
    | Return cm => cm
    | Raise _ => ConversionMetadata.make [] [] None None None ∅ [] [] []
    end
  !! "centre" = None
  /\ exists cm,
       (@convert sample_collaborators (sample_field 1 "kwbc" 0x40) []).1
       = Return cm.
Proof. split; [vm_compute; reflexivity | eexists; vm_compute; reflexivity]. Qed.

Example convert_edition_2 :
  @convert sample_collaborators (sample_field 2 "ecmf" 0x40) []
  = (Return
       (ConversionMetadata.make [] [] None None None
          {[ "centre" := "European Centre for Medium Range Weather Forecasts" ]}
          []
          [(DimCoord.make [90; 91; 92]%float "latitude" "degrees"
              (Some 0%nat) false, 0);
           (DimCoord.make [0; 1; 2; 3]%float "longitude" "degrees"
              (Some 0%nat) false, 1)]
          []),
     [mkGeogCS 6371229]).
Proof. vm_compute. reflexivity. Qed.

Example convert_edition_3 :
  @convert sample_collaborators (sample_field 3 "ecmf" 0) []
  = (Raise (TranslationError "GRIB edition 3 is not supported"), []).
Proof. vm_compute. reflexivity. Qed.

Example convert_alternative_rows :
  @convert sample_collaborators (sample_field 1 "ecmf" 0x10) []
  = (Raise (PyException "NameError"
              "global name 'TranslationError' is not defined"),
     [mkGeogCS 6371229]).
Proof. vm_compute. reflexivity. Qed.

Example convert_quasi_regular :
  @convert sample_collaborators reduced_field []
  = (Raise (TranslationError
              "Grid definition section 2 contains unsupported quasi-regular grid"),
     [mkGeogCS 6371229]).
Proof. vm_compute. reflexivity. Qed.

Example convert_zero_increment :
  @convert sample_collaborators
    {| sections_0 := mkSection0 1;
       sections_1 := mkSection1 "ecmf";
       sections_2 :=
         {| PLPresent := 0; scanningMode := 0;
            iDirectionIncrement := 1000; longitudeOfFirstGridPoint := 0; Ni := 4;
            jDirectionIncrement := 0; latitudeOfFirstGridPoint := 90000; Nj := 3 |};
       sections_3 := sample_section_3 0 |}
    []
  = (Raise (PyException "ValueError"
              "The points array must be strictly monotonic."),
     [mkGeogCS 6371229]).
Proof. vm_compute. reflexivity. Qed.

Example convert_overflow :
  (@convert sample_collaborators
     {| sections_0 := mkSection0 1;
        sections_1 := mkSection1 "ecmf";
        sections_2 :=
          {| PLPresent := 0; scanningMode := 0;
             iDirectionIncrement := 10 ^ 400; longitudeOfFirstGridPoint := 0;
             Ni := 4;
             jDirectionIncrement := 1000; latitudeOfFirstGridPoint := 90000;
             Nj := 3 |};
        sections_3 := sample_section_3 0 |}
     []).1
  = Raise (PyException "OverflowError"
             "long int too large to convert to float").
Proof. vm_compute. reflexivity. Qed.


(** * Further properties of the decoders and converters *)

(** ** Bit masks *)

(** ** Bit masks *)

Lemma land_pow2 (n k : Z) :
  0 <= k -> Z.land n (2 ^ k) = if Z.testbit n k then 2 ^ k else 0.
Proof.
  intros Hk. apply Z.bits_inj'. intros i Hi.
  rewrite Z.land_spec, Z.pow2_bits_eqb by lia.
  destruct (Z.eqb_spec k i) as [->|Hne].
  - destruct (Z.testbit n i) eqn:Hbit.
    + rewrite Z.pow2_bits_true by lia. reflexivity.
    + rewrite Z.bits_0. reflexivity.
  - rewrite andb_false_r.
    destruct (Z.testbit n k).
    + rewrite Z.pow2_bits_false by lia. reflexivity.
    + rewrite Z.bits_0. reflexivity.
Qed.

(** The high nibble of an integer, bit by bit. *)
Lemma land_0xF0_bits (n : Z) :
  Z.land n 0xF0
  = Z.lor (if Z.testbit n 7 then 0x80 else 0)
      (Z.lor (if Z.testbit n 6 then 0x40 else 0)
         (Z.lor (if Z.testbit n 5 then 0x20 else 0)
            (if Z.testbit n 4 then 0x10 else 0))).
Proof.
  change 0xF0 with (Z.lor (2 ^ 7) (Z.lor (2 ^ 6) (Z.lor (2 ^ 5) (2 ^ 4)))).
  rewrite !Z.land_lor_distr_r.
  rewrite !land_pow2 by lia. reflexivity.
Qed.

Lemma land_0xC0_bits (n : Z) :
  Z.land n 0xC0
  = Z.lor (if Z.testbit n 7 then 0x80 else 0) (if Z.testbit n 6 then 0x40 else 0).
Proof.
  change 0xC0 with (Z.lor (2 ^ 7) (2 ^ 6)).
  rewrite Z.land_lor_distr_r, !land_pow2 by lia. reflexivity.
Qed.

(** X1: [projection_centre] returns (south_pole_on_projection_plane = bit
    0x80, bipolar_and_symmetric = bit 0x40) for every integer, and the result
    is that of the flags masked with 0xC0: no other bit is read. *)
Theorem projection_centre_decodes (flags : Z) :
  projection_centre flags
  = {| south_pole_on_projection_plane := Z.testbit flags 7;
       bipolar_and_symmetric := Z.testbit flags 6 |}
  /\ projection_centre flags = projection_centre (Z.land flags 0xC0).
Proof.
  assert (Hform : forall n, projection_centre n
                            = mkProjectionCentre (Z.testbit n 7) (Z.testbit n 6)).
  { intros n. unfold projection_centre.
    rewrite truthy_land_0x80, truthy_land_0x40. reflexivity. }
  split; [apply Hform|].
  rewrite (Hform flags), (Hform (Z.land flags 0xC0)), land_0xC0_bits.
  destruct (Z.testbit flags 7), (Z.testbit flags 6); reflexivity.
Qed.

(** X2: a tuple returned by [scanning_mode] determines bits 0x80, 0x40, 0x20
    and 0x10 of the flags it was decoded from: the flags masked with 0xF0 are
    0x80, 0x40 and 0x20 or-ed together for the fields that are true, and
    [i_alternative] is false in every returned tuple. *)
Theorem scanning_mode_round_trip (flags : Z) (scan : ScanningMode) :
  scanning_mode flags = Return scan ->
  Z.land flags 0xF0
  = Z.lor (if i_negative scan then 0x80 else 0)
      (Z.lor (if j_positive scan then 0x40 else 0)
         (if j_consecutive scan then 0x20 else 0))
  /\ i_alternative scan = false.
Proof.
  intros Hscan. rewrite scanning_mode_bits in Hscan.
  rewrite land_0xF0_bits.
  destruct (Z.testbit flags 4); [discriminate|].
  destruct (Z.testbit flags 7), (Z.testbit flags 6), (Z.testbit flags 5);
    injection Hscan as <-; split; reflexivity.
Qed.

Lemma scanning_mode_round_trip_witness :
  Z.land 0xA5 0xF0
  = Z.lor (if i_negative (mkScanningMode true false true false) then 0x80 else 0)
      (Z.lor (if j_positive (mkScanningMode true false true false) then 0x40 else 0)
         (if j_consecutive (mkScanningMode true false true false) then 0x20 else 0))
  /\ i_alternative (mkScanningMode true false true false) = false.
Proof.
  apply (scanning_mode_round_trip 0xA5 (mkScanningMode true false true false)).
  reflexivity.
Defined.

(** ** The builder's footprint *)

(** X3: with the quasi-regular indicator unset and bit 0x10 of the scanning
    mode set, the builder raises what [scanning_mode] raises there, a
    [NameError] and not a [TranslationError], before it appends anything, so
    the metadata is as it found it; [convert] on a GRIB1 message with such a
    grid section, routed to the builder, raises that same [NameError]. *)
Theorem alternative_rows_name_error `{Collaborators} (section : GridSection)
    (s : Store) :
  PLPresent section = 0 ->
  Z.land (scanningMode section) 0x10 <> 0 ->
  (grid_definition_template_0 section s).1
  = Raise (PyException "NameError"
             "global name 'TranslationError' is not defined")
  /\ metadata (grid_definition_template_0 section s).2 = metadata s
  /\ forall (field : Field) (heap : list GeogCS),
       sections_2 field = section ->
       editionNumber (sections_0 field) = 1 ->
       (forall s0, grid_definition_section_grib1 section s0
                   = grid_definition_template_0 section s0) ->
       (convert field heap).1
       = Raise (PyException "NameError"
                  "global name 'TranslationError' is not defined").
Proof.
  intros HPL Hset.
  assert (Hscan : scanning_mode (scanningMode section)
                  = Raise (PyException "NameError"
                             "global name 'TranslationError' is not defined")).
  { unfold scanning_mode, truthy. apply Z.eqb_neq in Hset. rewrite Hset.
    reflexivity. }
  split; [|split].
  - rewrite (builder_scanning_raises section s _ HPL Hscan). reflexivity.
  - rewrite (builder_scanning_raises section s _ HPL Hscan). reflexivity.
  - intros field heap Hsec Hed Hroute.
    unfold convert. rewrite Hed. cbn [Z.eqb Pos.eqb].
    rewrite grib1_convert_run, Hsec, Hroute.
    rewrite (builder_scanning_raises section _ _ HPL Hscan). reflexivity.
Qed.

Lemma alternative_rows_name_error_witness :
  (@grid_definition_template_0 sample_collaborators (sample_section 0x10)
     empty_store).1
  = Raise (PyException "NameError"
             "global name 'TranslationError' is not defined")
  /\ metadata (@grid_definition_template_0 sample_collaborators
                 (sample_section 0x10) empty_store).2
     = initial_metadata
  /\ (@convert sample_collaborators (sample_field 1 "ecmf" 0x10) []).1
     = Raise (PyException "NameError"
                "global name 'TranslationError' is not defined").
Proof.
  destruct (@alternative_rows_name_error sample_collaborators
              (sample_section 0x10) empty_store)
    as (Hraise & Hsame & Hconvert).
  - reflexivity.
  - discriminate.
  - split; [exact Hraise|]. split; [exact Hsame|].
    apply (Hconvert (sample_field 1 "ecmf" 0x10) []).
    + reflexivity.
    + reflexivity.
    + intros s0. reflexivity.
Defined.

(** X4: whatever the outcome, the builder changes no metadata field other
    than [dim_coords_and_dims], and that one only by appending: two entries
    when it returns, none when it raises. *)
Theorem builder_frame `{Collaborators} (section : GridSection) (s : Store) :
  factories (metadata (grid_definition_template_0 section s).2)
  = factories (metadata s)
  /\ references (metadata (grid_definition_template_0 section s).2)
     = references (metadata s)
  /\ standard_name (metadata (grid_definition_template_0 section s).2)
     = standard_name (metadata s)
  /\ long_name (metadata (grid_definition_template_0 section s).2)
     = long_name (metadata s)
  /\ units (metadata (grid_definition_template_0 section s).2)
     = units (metadata s)
  /\ attributes (metadata (grid_definition_template_0 section s).2)
     = attributes (metadata s)
  /\ cell_methods (metadata (grid_definition_template_0 section s).2)
     = cell_methods (metadata s)
  /\ aux_coords_and_dims (metadata (grid_definition_template_0 section s).2)
     = aux_coords_and_dims (metadata s)
  /\ exists appended,
       dim_coords_and_dims (metadata (grid_definition_template_0 section s).2)
       = dim_coords_and_dims (metadata s) ++ appended
       /\ length appended
          = match (grid_definition_template_0 section s).1 with
            | Return _ => 2%nat
            | Raise _ => 0%nat
            end.
Proof.
  rewrite builder_run.
  destruct (builder_checks section) as [[scan circular]|e];
    cbn [fst snd metadata built_store factories references standard_name
         long_name units attributes cell_methods aux_coords_and_dims
         dim_coords_and_dims];
    repeat (split; [reflexivity|]).
  - eexists. split; reflexivity.
  - exists []. split; [symmetry; apply app_nil_r | reflexivity].
Qed.

(** X5: whatever the outcome, the builder allocates exactly one
    coordinate-system object, a [GeogCS] of radius 6371229, also when it goes
    on to reject the section; the objects allocated before keep their
    references. *)
Theorem builder_allocates_one `{Collaborators} (section : GridSection) (s : Store) :
  cs_heap (grid_definition_template_0 section s).2
  = cs_heap s ++ [mkGeogCS 6371229]
  /\ forall r : cs_ref,
       (r < length (cs_heap s))%nat ->
       cs_heap (grid_definition_template_0 section s).2 !! r = cs_heap s !! r.
Proof.
  assert (Hheap : cs_heap (grid_definition_template_0 section s).2
                  = cs_heap s ++ [mkGeogCS 6371229]).
  { rewrite builder_run.
    destruct (builder_checks section) as [[scan circular]|e]; reflexivity. }
  split; [exact Hheap|].
  intros r Hr. rewrite Hheap. apply lookup_app_l. exact Hr.
Qed.

(** ** GRIB1 messages through [convert] *)

(** The checks having passed, the four integers of the section were within
    the binary64 range. *)
Lemma builder_checks_in_range `{Collaborators} (section : GridSection)
    (scan : ScanningMode) (circular : bool) :
  builder_checks section = Return (scan, circular) ->
  float_of_int (iDirectionIncrement section)
  = Return (float_of_Z (iDirectionIncrement section))
  /\ float_of_int (longitudeOfFirstGridPoint section)
     = Return (float_of_Z (longitudeOfFirstGridPoint section))
  /\ float_of_int (jDirectionIncrement section)
     = Return (float_of_Z (jDirectionIncrement section))
  /\ float_of_int (latitudeOfFirstGridPoint section)
     = Return (float_of_Z (latitudeOfFirstGridPoint section)).
Proof.
  unfold builder_checks, and_then. intros Hchecks.
  destruct (truthy (PLPresent section)); [discriminate|].
  destruct (scanning_mode (scanningMode section)) as [scan0|e]; [|discriminate].
  destruct (float_of_int (iDirectionIncrement section)) as [f1|e] eqn:H1;
    [|discriminate].
  destruct (float_of_int (longitudeOfFirstGridPoint section)) as [f2|e] eqn:H2;
    [|discriminate].
  destruct (_is_circular _ _) as [circular0|e]; [|discriminate].
  destruct (float_of_int (jDirectionIncrement section)) as [f3|e] eqn:H3;
    [|discriminate].
  destruct (float_of_int (latitudeOfFirstGridPoint section)) as [f4|e] eqn:H4;
    [|discriminate].
  apply float_of_int_Return in H1, H2, H3, H4. subst.
  repeat split; reflexivity.
Qed.

(** X6: [convert] returns metadata for a GRIB1 message routed to the regular
    latitude-longitude builder only if the quasi-regular indicator is 0, bit
    0x10 of the scanning mode is clear, and the two increments and the two
    first-point values are within the binary64 range. *)
Theorem convert_accepts_only_if `{Collaborators} (field : Field)
    (heap : list GeogCS) (cm : ConversionMetadata.t) :
  editionNumber (sections_0 field) = 1 ->
  (forall s, grid_definition_section_grib1 (sections_2 field) s
             = grid_definition_template_0 (sections_2 field) s) ->
  (convert field heap).1 = Return cm ->
  PLPresent (sections_2 field) = 0
  /\ Z.land (scanningMode (sections_2 field)) 0x10 = 0
  /\ float_of_int (iDirectionIncrement (sections_2 field))
     = Return (float_of_Z (iDirectionIncrement (sections_2 field)))
  /\ float_of_int (longitudeOfFirstGridPoint (sections_2 field))
     = Return (float_of_Z (longitudeOfFirstGridPoint (sections_2 field)))
  /\ float_of_int (jDirectionIncrement (sections_2 field))
     = Return (float_of_Z (jDirectionIncrement (sections_2 field)))
  /\ float_of_int (latitudeOfFirstGridPoint (sections_2 field))
     = Return (float_of_Z (latitudeOfFirstGridPoint (sections_2 field))).
Proof.
  intros Hed Hroute Hconv.
  rewrite (convert_grib1_run field heap Hed Hroute), builder_run in Hconv.
  destruct (builder_checks (sections_2 field)) as [[scan circular]|e] eqn:Hchecks;
    cbn [conclude fst] in Hconv; [|discriminate].
  destruct (builder_checks_Return _ scan circular Hchecks) as (HPL & Hscan & _).
  split; [exact HPL|]. split.
  - destruct (Z.eq_dec (Z.land (scanningMode (sections_2 field)) 0x10) 0)
      as [Hz|Hnz]; [exact Hz|].
    exfalso. unfold scanning_mode, truthy in Hscan.
    apply Z.eqb_neq in Hnz. rewrite Hnz in Hscan. discriminate.
  - apply (builder_checks_in_range _ scan circular Hchecks).
Qed.

Lemma convert_accepts_only_if_witness :
  PLPresent (sample_section 0x40) = 0
  /\ Z.land (scanningMode (sample_section 0x40)) 0x10 = 0
  /\ float_of_int 1000 = Return (float_of_Z 1000)
  /\ float_of_int 0 = Return (float_of_Z 0)
  /\ float_of_int 1000 = Return (float_of_Z 1000)
  /\ float_of_int 90000 = Return (float_of_Z 90000).
Proof.
  apply (@convert_accepts_only_if sample_collaborators
           (sample_field 1 "kwbc" 0x40) []
           (ConversionMetadata.make [] [] None None None ∅ []
              [(DimCoord.make [90; 91; 92]%float "latitude" "degrees"
                  (Some 0%nat) false, 0);
               (DimCoord.make [0; 1; 2; 3]%float "longitude" "degrees"
                  (Some 0%nat) false, 1)]
              [])).
  - reflexivity.
  - intros s. reflexivity.
  - vm_compute. reflexivity.
Defined.

(** X7: the metadata [convert] returns for a GRIB1 message routed to the
    builder has every pass-through field as initialised (empty lists, [None]
    names and units, no auxiliary coordinates), attributes holding the centre
    name under 'centre' and nothing else (no key at all for a code outside the
    table), and the call has allocated one [GeogCS] object. *)
Theorem convert_grib1_fields `{Collaborators} (field : Field)
    (heap heap' : list GeogCS) (cm : ConversionMetadata.t) :
  editionNumber (sections_0 field) = 1 ->
  (forall s, grid_definition_section_grib1 (sections_2 field) s
             = grid_definition_template_0 (sections_2 field) s) ->
  convert field heap = (Return cm, heap') ->
  ConversionMetadata.factories cm = []
  /\ ConversionMetadata.references cm = []
  /\ ConversionMetadata.standard_name cm = None
  /\ ConversionMetadata.long_name cm = None
  /\ ConversionMetadata.units cm = None
  /\ ConversionMetadata.cell_methods cm = []
  /\ ConversionMetadata.aux_coords_and_dims cm = []
  /\ ConversionMetadata.attributes cm
     = match _CENTRES !! centre (sections_1 field) with
       | Some name => {[ "centre" := name ]}
       | None => ∅
       end
  /\ heap' = heap ++ [mkGeogCS 6371229].
Proof.
  intros Hed Hroute Hconv.
  rewrite (convert_grib1_run field heap Hed Hroute), builder_run in Hconv.
  destruct (builder_checks (sections_2 field)) as [[scan circular]|e];
    cbn [conclude] in Hconv; [|discriminate].
  injection Hconv as <- <-.
  repeat (split; [reflexivity|]). reflexivity.
Qed.

Lemma convert_grib1_fields_witness :
  ConversionMetadata.factories
    (ConversionMetadata.make [] [] None None None ∅ []
       [(DimCoord.make [90; 89; 88]%float "latitude" "degrees" (Some 0%nat) false, 0);
        (DimCoord.make [0; 1; 2; 3]%float "longitude" "degrees" (Some 0%nat) false, 1)]
       []) = []
  /\ ConversionMetadata.references
       (ConversionMetadata.make [] [] None None None ∅ []
          [(DimCoord.make [90; 89; 88]%float "latitude" "degrees" (Some 0%nat) false, 0);
           (DimCoord.make [0; 1; 2; 3]%float "longitude" "degrees" (Some 0%nat) false, 1)]
          []) = []
  /\ @None string = None
  /\ @None string = None
  /\ @None string = None
  /\ @nil passthrough = []
  /\ @nil (DimCoord.t * Z) = []
  /\ (∅ : gmap string string)
     = match _CENTRES !! "kwbc" with
       | Some name => {[ "centre" := name ]}
       | None => ∅
       end
  /\ [mkGeogCS 6371229] = [] ++ [mkGeogCS 6371229].
Proof.
  apply (@convert_grib1_fields sample_collaborators (sample_field 1 "kwbc" 0)
           [] [mkGeogCS 6371229]
           (ConversionMetadata.make [] [] None None None ∅ []
              [(DimCoord.make [90; 89; 88]%float "latitude" "degrees"
                  (Some 0%nat) false, 0);
               (DimCoord.make [0; 1; 2; 3]%float "longitude" "degrees"
                  (Some 0%nat) false, 1)]
              [])).
  - reflexivity.
  - intros s. reflexivity.
  - vm_compute. reflexivity.
Defined.

(** X8: in the metadata [convert] returns for a GRIB1 message routed to the
    builder no two dim-coordinates are bound to the same dimension: the
    dimension indices of the entries are 0 and 1, each once. *)
Theorem convert_dimensions_distinct `{Collaborators} (field : Field)
    (heap heap' : list GeogCS) (cm : ConversionMetadata.t) :
  editionNumber (sections_0 field) = 1 ->
  (forall s, grid_definition_section_grib1 (sections_2 field) s
             = grid_definition_template_0 (sections_2 field) s) ->
  convert field heap = (Return cm, heap') ->
  NoDup (map snd (ConversionMetadata.dim_coords_and_dims cm))
  /\ forall d : Z,
       d ∈ map snd (ConversionMetadata.dim_coords_and_dims cm)
       <-> d = 0 \/ d = 1.
Proof.
  intros Hed Hroute Hconv.
  rewrite (convert_grib1_run field heap Hed Hroute), builder_run in Hconv.
  destruct (builder_checks (sections_2 field)) as [[scan circular]|e];
    cbn [conclude] in Hconv; [|discriminate].
  injection Hconv as <- <-.
  cbn [_make metadata built_store dim_coords_and_dims
       ConversionMetadata.dim_coords_and_dims app map snd].
  destruct (j_consecutive scan).
  - split.
    + apply NoDup_cons. split; [|apply NoDup_singleton].
      rewrite list_elem_of_singleton. discriminate.
    + intros d. rewrite elem_of_cons, list_elem_of_singleton. tauto.
  - split.
    + apply NoDup_cons. split; [|apply NoDup_singleton].
      rewrite list_elem_of_singleton. discriminate.
    + intros d. rewrite elem_of_cons, list_elem_of_singleton. tauto.
Qed.

Lemma convert_dimensions_distinct_witness :
  NoDup (map snd
           [(DimCoord.make [90; 89; 88]%float "latitude" "degrees" (Some 0%nat) false, 1);
            (DimCoord.make [0; 1; 2; 3]%float "longitude" "degrees" (Some 0%nat) false, 0)])
  /\ forall d : Z,
       d ∈ map snd
             [(DimCoord.make [90; 89; 88]%float "latitude" "degrees" (Some 0%nat) false, 1);
              (DimCoord.make [0; 1; 2; 3]%float "longitude" "degrees" (Some 0%nat) false, 0)]
       <-> d = 0 \/ d = 1.
Proof.
  apply (@convert_dimensions_distinct sample_collaborators
           (sample_field 1 "kwbc" 0x20) [] [mkGeogCS 6371229]
           (ConversionMetadata.make [] [] None None None ∅ []
              [(DimCoord.make [90; 89; 88]%float "latitude" "degrees"
                  (Some 0%nat) false, 1);
               (DimCoord.make [0; 1; 2; 3]%float "longitude" "degrees"
                  (Some 0%nat) false, 0)]
              [])).
  - reflexivity.
  - intros s. reflexivity.
  - vm_compute. reflexivity.
Defined.

(** X9: what [convert] makes of a GRIB1 message routed to the builder does
    not depend on the objects allocated before the call: from any two heaps it
    raises the same exception, or returns metadata with the same attributes
    and the same dim-coordinate entries (points, names, units, circular flag,
    dimension), whose coordinate systems are equal objects.  In particular a
    second call on the same message gives element-wise equal metadata. *)
Theorem convert_heap_independent `{Collaborators} (field : Field)
    (heap1 heap2 : list GeogCS) :
  editionNumber (sections_0 field) = 1 ->
  (forall s, grid_definition_section_grib1 (sections_2 field) s
             = grid_definition_template_0 (sections_2 field) s) ->
  (forall e, (convert field heap1).1 = Raise e ->
             (convert field heap2).1 = Raise e)
  /\ (forall cm1,
        (convert field heap1).1 = Return cm1 ->
        exists cm2,
          (convert field heap2).1 = Return cm2
          /\ ConversionMetadata.attributes cm2 = ConversionMetadata.attributes cm1
          /\ Forall2
               (fun e1 e2 : DimCoord.t * Z =>
                  DimCoord.points e1.1 = DimCoord.points e2.1
                  /\ DimCoord.standard_name e1.1 = DimCoord.standard_name e2.1
                  /\ DimCoord.units e1.1 = DimCoord.units e2.1
                  /\ DimCoord.circular e1.1 = DimCoord.circular e2.1
                  /\ e1.2 = e2.2
                  /\ coord_system_object (convert field heap1).2 e1.1
                     = Some (mkGeogCS 6371229)
                  /\ coord_system_object (convert field heap2).2 e2.1
                     = Some (mkGeogCS 6371229))
               (ConversionMetadata.dim_coords_and_dims cm1)
               (ConversionMetadata.dim_coords_and_dims cm2)).
Proof.
  intros Hed Hroute.
  rewrite !(convert_grib1_run field _ Hed Hroute), !builder_run.
  set (md0 := mkMetadata [] [] None None None _ [] [] []).
  assert (Hderef : forall heap : list GeogCS,
             (heap ++ [mkGeogCS 6371229]) !! length heap
             = Some (mkGeogCS 6371229)).
  { intros heap. rewrite lookup_app_r by reflexivity.
    replace (length heap - length heap)%nat with 0%nat by lia. reflexivity. }
  destruct (builder_checks (sections_2 field)) as [[scan circular]|e0];
    cbn [conclude fst snd].
  - split; [intros e He; discriminate|].
    intros cm1 Hcm1. injection Hcm1 as <-.
    eexists. split; [reflexivity|]. split; [reflexivity|].
    cbn [_make metadata built_store ConversionMetadata.dim_coords_and_dims
         dim_coords_and_dims md0 cs_heap app].
    unfold coord_system_object.
    cbn [fst snd DimCoord.points DimCoord.standard_name DimCoord.units
         DimCoord.circular DimCoord.coord_system].
    repeat constructor; apply Hderef.
  - split; [intros e He; exact He | intros cm1 Hcm1; discriminate].
Qed.

Lemma convert_heap_independent_witness :
  (forall e,
     (@convert sample_collaborators (sample_field 1 "ecmf" 0) []).1 = Raise e ->
     (@convert sample_collaborators (sample_field 1 "ecmf" 0)
        [mkGeogCS 6371229]).1 = Raise e)
  /\ (forall cm1,
        (@convert sample_collaborators (sample_field 1 "ecmf" 0) []).1
        = Return cm1 ->
        exists cm2,
          (@convert sample_collaborators (sample_field 1 "ecmf" 0)
             [mkGeogCS 6371229]).1 = Return cm2
          /\ ConversionMetadata.attributes cm2 = ConversionMetadata.attributes cm1
          /\ Forall2
               (fun e1 e2 : DimCoord.t * Z =>
                  DimCoord.points e1.1 = DimCoord.points e2.1
                  /\ DimCoord.standard_name e1.1 = DimCoord.standard_name e2.1
                  /\ DimCoord.units e1.1 = DimCoord.units e2.1
                  /\ DimCoord.circular e1.1 = DimCoord.circular e2.1
                  /\ e1.2 = e2.2
                  /\ coord_system_object
                       (@convert sample_collaborators (sample_field 1 "ecmf" 0) []).2
                       e1.1
                     = Some (mkGeogCS 6371229)
                  /\ coord_system_object
                       (@convert sample_collaborators (sample_field 1 "ecmf" 0)
                          [mkGeogCS 6371229]).2
                       e2.1
                     = Some (mkGeogCS 6371229))
               (ConversionMetadata.dim_coords_and_dims cm1)
               (ConversionMetadata.dim_coords_and_dims cm2)).
Proof.
  apply (@convert_heap_independent sample_collaborators (sample_field 1 "ecmf" 0)
           [] [mkGeogCS 6371229]).
  - reflexivity.
  - intros s. reflexivity.
Defined.

(** ** The unsupported-edition message *)

(** ** The unsupported-edition message *)

Lemma string_app_length (a b : string) :
  String.length (a ++ b)%string = (String.length a + String.length b)%nat.
Proof. induction a as [|c a IH]; simpl; [reflexivity | rewrite IH; reflexivity]. Qed.

Lemma string_app_inv_tail (a b suffix : string) :
  (a ++ suffix)%string = (b ++ suffix)%string -> a = b.
Proof.
  revert b. induction a as [|c a IH]; intros [|c' b] Heq.
  - reflexivity.
  - apply (f_equal String.length) in Heq.
    rewrite !string_app_length in Heq. simpl in Heq. lia.
  - apply (f_equal String.length) in Heq.
    rewrite !string_app_length in Heq. simpl in Heq. lia.
  - change (String c (a ++ suffix)%string = String c' (b ++ suffix)%string) in Heq.
    injection Heq as -> Heq. f_equal. apply IH. exact Heq.
Qed.

(** X10: the message of the unsupported-edition error identifies the edition
    number: two messages with unsupported edition numbers on which [convert]
    raises the same exception carry the same edition number. *)
Theorem unsupported_edition_identified `{Collaborators} (field1 field2 : Field)
    (heap1 heap2 : list GeogCS) :
  editionNumber (sections_0 field1) <> 1 ->
  editionNumber (sections_0 field1) <> 2 ->
  editionNumber (sections_0 field2) <> 1 ->
  editionNumber (sections_0 field2) <> 2 ->
  (convert field1 heap1).1 = (convert field2 heap2).1 ->
  editionNumber (sections_0 field1) = editionNumber (sections_0 field2).
Proof.
  intros H11 H12 H21 H22. unfold convert.
  apply Z.eqb_neq in H11, H12, H21, H22. rewrite H11, H12, H21, H22.
  cbn [conclude raise fst]. intros Heq.
  injection Heq as Heq.
  apply (inj (String.append "")) in Heq.
  apply string_app_inv_tail in Heq.
  apply str_inj in Heq. exact Heq.
Qed.

Lemma unsupported_edition_identified_witness :
  editionNumber (sections_0 (sample_field 3 "ecmf" 0))
  = editionNumber (sections_0 (sample_field 3 "kwbc" 0x40)).
Proof.
  apply (@unsupported_edition_identified sample_collaborators
           (sample_field 3 "ecmf" 0) (sample_field 3 "kwbc" 0x40) [] []).
  - discriminate.
  - discriminate.
  - discriminate.
  - discriminate.
  - reflexivity.
Defined.

(** * The El Nino example: [classify] and [filter_events] *)

(** ** Item assignment and the inner loop *)

Lemma setitem_in_range (seq : list string) (i : nat) (value : string) :
  (i < length seq)%nat ->
  setitem seq (Z.of_nat i) value = Return (<[i := value]> seq).
Proof.
  intros Hi. unfold setitem.
  assert (Hin : (0 <=? Z.of_nat i) && (Z.of_nat i <? Z.of_nat (length seq)) = true).
  { apply andb_true_intro. split; [apply Z.leb_le | apply Z.ltb_lt]; lia. }
  rewrite Hin, Nat2Z.id. reflexivity.
Qed.

(** Assigning 'N' at [start + k], ..., [start + k + n - 1] rewrites exactly
    those positions. *)
Lemma nullify_range (start n : nat) :
  forall (k : nat) (pre mid post : list string),
    length pre = (start + k)%nat ->
    length mid = n ->
    for_each (map Z.of_nat (List.seq k n))
      (fun i seq => setitem seq (Z.of_nat start + i) "N")
      (pre ++ mid ++ post)
    = Return (pre ++ replicate n "N" ++ post).
Proof.
  induction n as [|n IH]; intros k pre mid post Hpre Hmid.
  - destruct mid; [reflexivity | discriminate].
  - destruct mid as [|x mid]; [discriminate|].
    injection Hmid as Hmid.
    cbn [List.seq map for_each].
    replace (Z.of_nat start + Z.of_nat k) with (Z.of_nat (length pre)) by lia.
    rewrite setitem_in_range
      by (rewrite length_app; cbn [length app]; lia).
    rewrite insert_app_r_alt by lia.
    replace (length pre - length pre)%nat with 0%nat by lia.
    cbn [app insert list_insert].
    specialize (IH (S k) (pre ++ ["N"]) mid post).
    rewrite <- !app_assoc in IH. cbn [app] in IH.
    rewrite IH by (rewrite ?length_app; cbn [length]; lia).
    reflexivity.
Qed.

(** The body of the loop over the runs, on a run of [n] times [char] that
    starts where [pre] ends: the run is written out as [write_run] has it. *)
Lemma run_step (min_length : Z) (char : string) (n : nat)
    (pre rest : list string) :
  (if Z.of_nat n <? min_length then
     for_each (xrange (Z.of_nat n))
       (fun i seq => setitem seq (Z.of_nat (length pre) + i) "N")
       (pre ++ replicate n char ++ rest)
   else Return (pre ++ replicate n char ++ rest))
  = Return (pre ++ write_run min_length char n ++ rest).
Proof.
  unfold write_run, xrange. rewrite Nat2Z.id.
  destruct (Z.of_nat n <? min_length); [|reflexivity].
  apply nullify_range; [lia | apply length_replicate].
Qed.

(** ** From the index arithmetic to a single pass *)

Lemma replicate_snoc_app {A} (n : nat) (x : A) (l : list A) :
  replicate n x ++ x :: l = replicate (S n) x ++ l.
Proof.
  induction n as [|n IH]; [reflexivity|].
  cbn [replicate app]. rewrite IH. reflexivity.
Qed.

Lemma np_diff_cons_cons (x y : Z) (rest : list Z) :
  np_diff (x :: y :: rest) = (y - x) :: np_diff (y :: rest).
Proof. reflexivity. Qed.

(** The scan of one iteration, started in the middle: [pre] is the part of
    the array already dealt with, the next [n] elements are a run of [char]
    still open (its start, if [n] is positive, is the one start index found
    so far), and [l] is the part the differences are still to be taken
    over.  The start and end indices pair up, and looping over the pairs
    does what the single pass does. *)
Lemma scan_refines (min_length : Z) (char : string) (l : list string) :
  forall (pre : list string) (n : nat),
    let diff :=
      np_diff ((match n with O => 0 | S _ => 1 end)
               :: np_where_eq l char ++ [0]) in
    let starts :=
      (match n with O => [] | S _ => [Z.of_nat (length pre)] end)
      ++ nonzero_from (Z.of_nat (length pre + n)) (map (fun d => 0 <? d) diff) in
    let ends :=
      nonzero_from (Z.of_nat (length pre + n)) (map (fun d => d <? 0) diff) in
    length ends = length starts
    /\ for_each (zip starts (zip_with Z.sub ends starts))
         (fun '(start, length) seq =>
            if length <? min_length then
              for_each (xrange length)
                (fun i seq => setitem seq (start + i) "N") seq
            else Return seq)
         (pre ++ replicate n char ++ l)
       = Return (pre ++ nullify_short_runs min_length char n l).
Proof.
  induction l as [|c l IH]; intros pre n.
  - change (np_where_eq [] char ++ [0]) with [0].
    rewrite np_diff_cons_cons. change (np_diff [0]) with (@nil Z).
    cbn [nullify_short_runs].
    destruct n as [|n].
    + change (0 - 0) with 0. cbn [map nonzero_from app zip zip_with for_each length].
      change (0 <? 0) with false. cbn [app zip zip_with for_each length replicate].
      split; [reflexivity|]. unfold write_run. reflexivity.
    + change (0 - 1) with (-1). cbn [map nonzero_from].
      change (0 <? -1) with false. change (-1 <? 0) with true.
      cbn [app zip zip_with for_each length].
      split; [reflexivity|].
      replace (Z.of_nat (length pre + S n) - Z.of_nat (length pre))
        with (Z.of_nat (S n)) by lia.
      rewrite (run_step min_length char (S n) pre []).
      rewrite !app_nil_r. reflexivity.
  - change (np_where_eq (c :: l) char ++ [0])
      with ((if String.eqb c char then 1 else 0) :: (np_where_eq l char ++ [0])).
    rewrite np_diff_cons_cons. cbn [nullify_short_runs].
    destruct (String.eqb c char) eqn:Hc.
    + (* the run goes on, or starts here *)
      apply String.eqb_eq in Hc. subst c.
      specialize (IH pre (S n)). cbn zeta in IH.
      replace (length pre + S n)%nat with (S (length pre + n)) in IH by lia.
      rewrite replicate_snoc_app.
      destruct n as [|n].
      * change (1 - 0) with 1. cbn [map nonzero_from].
        change (0 <? 1) with true. change (1 <? 0) with false.
        cbn [app].
        replace (Z.of_nat (length pre + 0) + 1)
          with (Z.of_nat (S (length pre + 0))) by lia.
        replace (Z.of_nat (length pre + 0)) with (Z.of_nat (length pre))
          by (f_equal; lia).
        exact IH.
      * change (1 - 1) with 0. cbn [map nonzero_from].
        change (0 <? 0) with false.
        cbn [app].
        replace (Z.of_nat (length pre + S n) + 1)
          with (Z.of_nat (S (length pre + S n))) by lia.
        exact IH.
    + (* the run, if any, ends here *)
      specialize (IH (pre ++ write_run min_length char n ++ [c]) 0%nat).
      cbn zeta in IH. cbn [replicate app] in IH.
      assert (Hlen : (length (pre ++ write_run min_length char n ++ [c]) + 0)%nat
                     = S (length pre + n)).
      { rewrite !length_app. unfold write_run. rewrite length_replicate.
        cbn [length]. lia. }
      rewrite Hlen in IH. rewrite <- !app_assoc in IH. cbn [app] in IH.
      destruct n as [|n].
      * change (0 - 0) with 0. cbn [map nonzero_from].
        change (0 <? 0) with false.
        cbn [app replicate].
        replace (Z.of_nat (length pre + 0) + 1)
          with (Z.of_nat (S (length pre + 0))) by lia.
        exact IH.
      * change (0 - 1) with (-1). cbn [map nonzero_from].
        change (0 <? -1) with false. change (-1 <? 0) with true.
        cbn [app].
        replace (Z.of_nat (length pre + S n) + 1)
          with (Z.of_nat (S (length pre + S n))) by lia.
        destruct IH as (IHlen & IHrun).
        cbn [length zip zip_with for_each].
        split; [rewrite IHlen; reflexivity|].
        replace (Z.of_nat (length pre + S n) - Z.of_nat (length pre))
          with (Z.of_nat (S n)) by lia.
        rewrite (run_step min_length char (S n) pre (c :: l)).
        exact IHrun.
Qed.

(** One iteration never raises: the start and end indices pair up, every
    assignment is in range, and the array is left as the single pass leaves
    it. *)
Lemma filter_events_char_run (min_length : Z) (char : string)
    (seq : list string) :
  filter_events_char min_length char seq
  = Return (nullify_short_runs min_length char 0 seq).
Proof.
  destruct (scan_refines min_length char seq [] 0%nat) as (Hlen & Hrun).
  cbn zeta in Hlen, Hrun. cbn [app length Nat.add replicate] in Hlen, Hrun.
  unfold filter_events_char, np_where, np_sub.
  cbn [app]. change (Z.of_nat 0) with 0 in Hlen, Hrun.
  rewrite Hlen, Nat.eqb_refl. exact Hrun.
Qed.

Lemma filter_events_run (seq : list string) (min_length : Z) :
  filter_events seq min_length
  = Return (nullify_short_runs min_length "L" 0
              (nullify_short_runs min_length "H" 0 seq)).
Proof.
  unfold filter_events. cbn [for_each].
  rewrite !filter_events_char_run. reflexivity.
Qed.

(** ** The single pass, position by position *)

Lemma length_write_run (min_length : Z) (char : string) (n : nat) :
  length (write_run min_length char n) = n.
Proof. unfold write_run. apply length_replicate. Qed.

Lemma length_nullify_short_runs (min_length : Z) (char : string)
    (l : list string) :
  forall n, length (nullify_short_runs min_length char n l) = (n + length l)%nat.
Proof.
  induction l as [|c l IH]; intros n; cbn [nullify_short_runs length].
  - rewrite length_write_run. lia.
  - destruct (String.eqb c char).
    + rewrite IH. lia.
    + rewrite length_app, length_write_run. cbn [length]. rewrite IH. lia.
Qed.

Lemma lookup_write_run (min_length : Z) (char : string) (n i : nat) :
  (i < n)%nat ->
  write_run min_length char n !! i
  = Some (if Z.of_nat n <? min_length then "N" else char).
Proof. intros Hi. unfold write_run. apply lookup_replicate_2. exact Hi. Qed.

(** Each position keeps its element or, if that was [char], may get 'N'. *)
Lemma nullify_short_runs_pointwise (min_length : Z) (char : string)
    (l : list string) :
  forall (n i : nat),
    nullify_short_runs min_length char n l !! i
    = (replicate n char ++ l) !! i
    \/ (nullify_short_runs min_length char n l !! i = Some "N"
        /\ (replicate n char ++ l) !! i = Some char).
Proof.
  induction l as [|c l IH]; intros n i; cbn [nullify_short_runs].
  - rewrite app_nil_r.
    destruct (Nat.lt_ge_cases i n) as [Hi|Hi].
    + rewrite lookup_write_run, lookup_replicate_2 by exact Hi.
      destruct (Z.of_nat n <? min_length); [right | left]; auto.
    + left. rewrite !lookup_ge_None_2; [reflexivity | |].
      * rewrite length_replicate. exact Hi.
      * rewrite length_write_run. exact Hi.
  - destruct (String.eqb c char) eqn:Hc.
    + apply String.eqb_eq in Hc. subst c. rewrite replicate_snoc_app. apply IH.
    + destruct (Nat.lt_ge_cases i n) as [Hi|Hi].
      * rewrite !lookup_app_l
          by (rewrite ?length_write_run, ?length_replicate; exact Hi).
        rewrite lookup_write_run, lookup_replicate_2 by exact Hi.
        destruct (Z.of_nat n <? min_length); [right | left]; auto.
      * rewrite !lookup_app_r
          by (rewrite ?length_write_run, ?length_replicate; exact Hi).
        rewrite length_write_run, length_replicate.
        destruct (i - n)%nat as [|k] eqn:Hk; cbn [lookup list_lookup].
        -- left. reflexivity.
        -- apply (IH 0%nat k).
Qed.

Lemma lookup_app_cons (p : list string) (c : string) (l : list string) (j : nat) :
  (p ++ c :: l) !! j
  = if (j <? length p)%nat then p !! j
    else if (j =? length p)%nat then Some c
    else l !! (j - length p - 1)%nat.
Proof.
  destruct (Nat.ltb_spec j (length p)) as [Hlt|Hge].
  - apply lookup_app_l. exact Hlt.
  - rewrite lookup_app_r by exact Hge.
    destruct (Nat.eqb_spec j (length p)) as [->|Hne].
    + replace (length p - length p)%nat with 0%nat by lia. reflexivity.
    + destruct (j - length p)%nat as [|d] eqn:Hd; [lia|].
      replace (S d - 1)%nat with d by lia. reflexivity.
Qed.

(** A block of [char] lies within the array. *)
Lemma block_bound (l : list string) (c : string) (a b : nat) :
  (a < b)%nat -> block l c a b -> (b <= length l)%nat.
Proof.
  intros Hab Hblock.
  assert (Hlast : l !! (b - 1)%nat = Some c) by (apply Hblock; lia).
  apply lookup_lt_Some in Hlast. lia.
Qed.

(** An element [char] that survives the pass sits in a block of [char] at
    least [min_length] long. *)
Lemma nullify_short_runs_survivors (min_length : Z) (char : string)
    (l : list string) :
  char <> "N" ->
  forall (n i : nat),
    nullify_short_runs min_length char n l !! i = Some char ->
    exists a b : nat,
      (a <= i < b)%nat
      /\ min_length <= Z.of_nat (b - a)
      /\ block (nullify_short_runs min_length char n l) char a b.
Proof.
  intros HN. induction l as [|c l IH]; intros n i Hi; cbn [nullify_short_runs] in *.
  - assert (Hin : (i < n)%nat).
    { apply lookup_lt_Some in Hi. rewrite length_write_run in Hi. exact Hi. }
    rewrite lookup_write_run in Hi by exact Hin.
    destruct (Z.of_nat n <? min_length) eqn:Hshort; [congruence|].
    apply Z.ltb_ge in Hshort.
    exists 0%nat, n. split; [lia|]. split; [lia|].
    intros j Hj. rewrite lookup_write_run by lia.
    apply Z.ltb_ge in Hshort. rewrite Hshort. reflexivity.
  - destruct (String.eqb c char) eqn:Hc; [apply IH; exact Hi|].
    rewrite lookup_app_cons, length_write_run in Hi.
    destruct (Nat.ltb_spec i n) as [Hin|Hin].
    + rewrite lookup_write_run in Hi by exact Hin.
      destruct (Z.of_nat n <? min_length) eqn:Hshort; [congruence|].
      exists 0%nat, n. split; [lia|]. split; [apply Z.ltb_ge in Hshort; lia|].
      intros j Hj. rewrite lookup_app_l by (rewrite length_write_run; lia).
      rewrite lookup_write_run by lia. rewrite Hshort. reflexivity.
    + destruct (Nat.eqb_spec i n) as [Heq|Hne].
      * injection Hi as ->. rewrite String.eqb_refl in Hc. discriminate.
      * destruct (IH 0%nat (i - n - 1)%nat Hi) as (a & b & Hab & Hlong & Hblock).
        exists (n + 1 + a)%nat, (n + 1 + b)%nat.
        split; [lia|]. split; [replace (n + 1 + b - (n + 1 + a))%nat
                                 with (b - a)%nat by lia; exact Hlong|].
        intros j Hj. rewrite lookup_app_cons, length_write_run.
        destruct (Nat.ltb_spec j n); [lia|].
        destruct (Nat.eqb_spec j n); [lia|].
        apply Hblock. lia.
Qed.

(** A block of [char] at least [min_length] long is still there after the
    pass. *)
Lemma nullify_short_runs_keeps (min_length : Z) (char : string)
    (l : list string) :
  forall (n a b : nat),
    block (replicate n char ++ l) char a b ->
    min_length <= Z.of_nat (b - a) ->
    block (nullify_short_runs min_length char n l) char a b.
Proof.
  induction l as [|c l IH]; intros n a b Hblock Hlong; cbn [nullify_short_runs].
  - rewrite app_nil_r in Hblock. intros j Hj.
    assert (Hb : (b <= n)%nat).
    { apply (block_bound _ char a b) in Hblock; [|lia].
      rewrite length_replicate in Hblock. exact Hblock. }
    rewrite lookup_write_run by lia.
    assert (Hshort : (Z.of_nat n <? min_length) = false) by (apply Z.ltb_ge; lia).
    rewrite Hshort. reflexivity.
  - destruct (String.eqb c char) eqn:Hc.
    + apply String.eqb_eq in Hc. subst c.
      rewrite replicate_snoc_app in Hblock. apply IH; assumption.
    + intros j Hj.
      assert (Hsplit : (b <= n \/ n < a)%nat).
      { destruct (Nat.le_gt_cases b n) as [Hbn|Hbn]; [left; exact Hbn|].
        destruct (Nat.le_gt_cases a n) as [Han|Han]; [|right; exact Han].
        exfalso. assert (Hn : (replicate n char ++ c :: l) !! n = Some char)
          by (apply Hblock; lia).
        rewrite lookup_app_cons, length_replicate in Hn.
        rewrite Nat.ltb_irrefl, Nat.eqb_refl in Hn.
        injection Hn as ->. rewrite String.eqb_refl in Hc. discriminate. }
      rewrite lookup_app_cons, length_write_run.
      destruct Hsplit as [Hbn|Han].
      * destruct (Nat.ltb_spec j n); [|lia].
        rewrite lookup_write_run by lia.
        assert (Hshort : (Z.of_nat n <? min_length) = false) by (apply Z.ltb_ge; lia).
        rewrite Hshort. reflexivity.
      * destruct (Nat.ltb_spec j n); [lia|].
        destruct (Nat.eqb_spec j n); [lia|].
        apply (IH 0%nat (a - n - 1)%nat (b - n - 1)%nat); [| lia | lia].
        intros k Hk. cbn [replicate app].
        specialize (Hblock (k + n + 1)%nat).
        rewrite lookup_app_cons, length_replicate in Hblock.
        destruct (Nat.ltb_spec (k + n + 1) n); [lia|].
        destruct (Nat.eqb_spec (k + n + 1) n); [lia|].
        replace (k + n + 1 - n - 1)%nat with k in Hblock by lia.
        apply Hblock. lia.
Qed.

(** A maximal block of [char] shorter than [min_length] is all 'N' after the
    pass. *)
Lemma nullify_short_runs_nullifies (min_length : Z) (char : string)
    (l : list string) :
  forall (n a b : nat),
    (a < b)%nat ->
    block (replicate n char ++ l) char a b ->
    (a = 0%nat \/ (replicate n char ++ l) !! (a - 1)%nat <> Some char) ->
    (replicate n char ++ l) !! b <> Some char ->
    Z.of_nat (b - a) < min_length ->
    block (nullify_short_runs min_length char n l) "N" a b.
Proof.
  induction l as [|c l IH]; intros n a b Hab Hblock Hleft Hright Hshort;
    cbn [nullify_short_runs].
  - rewrite app_nil_r in Hblock, Hleft, Hright.
    assert (Hb : (b <= n)%nat).
    { apply (block_bound _ char a b) in Hblock; [|lia].
      rewrite length_replicate in Hblock. exact Hblock. }
    assert (Hbn : b = n).
    { destruct (Nat.eq_dec b n) as [|Hne]; [assumption|].
      exfalso. apply Hright. apply lookup_replicate_2. lia. }
    assert (Ha : a = 0%nat).
    { destruct Hleft as [|Hleft]; [assumption|].
      exfalso. apply Hleft. apply lookup_replicate_2. lia. }
    subst a b. intros j Hj. rewrite lookup_write_run by lia.
    assert (Hlt : (Z.of_nat n <? min_length) = true) by (apply Z.ltb_lt; lia).
    rewrite Hlt. reflexivity.
  - destruct (String.eqb c char) eqn:Hc.
    + apply String.eqb_eq in Hc. subst c.
      rewrite replicate_snoc_app in Hblock, Hleft, Hright.
      apply IH; assumption.
    + assert (Hsplit : (b <= n \/ n < a)%nat).
      { destruct (Nat.le_gt_cases b n) as [Hbn|Hbn]; [left; exact Hbn|].
        destruct (Nat.le_gt_cases a n) as [Han|Han]; [|right; exact Han].
        exfalso. assert (Hn : (replicate n char ++ c :: l) !! n = Some char)
          by (apply Hblock; lia).
        rewrite lookup_app_cons, length_replicate in Hn.
        rewrite Nat.ltb_irrefl, Nat.eqb_refl in Hn.
        injection Hn as ->. rewrite String.eqb_refl in Hc. discriminate. }
      destruct Hsplit as [Hbn|Han].
      * assert (Hbn' : b = n).
        { destruct (Nat.eq_dec b n) as [|Hne]; [assumption|].
          exfalso. apply Hright. rewrite lookup_app_l
            by (rewrite length_replicate; lia).
          apply lookup_replicate_2. lia. }
        assert (Ha : a = 0%nat).
        { destruct Hleft as [|Hleft]; [assumption|].
          exfalso. apply Hleft. rewrite lookup_app_l
            by (rewrite length_replicate; lia).
          apply lookup_replicate_2. lia. }
        subst a b. intros j Hj.
        rewrite lookup_app_l by (rewrite length_write_run; lia).
        rewrite lookup_write_run by lia.
        assert (Hlt : (Z.of_nat n <? min_length) = true) by (apply Z.ltb_lt; lia).
        rewrite Hlt. reflexivity.
      * assert (Hshift : forall k : nat,
                   (n < k)%nat ->
                   (replicate n char ++ c :: l) !! k = l !! (k - n - 1)%nat).
        { intros k Hk. rewrite lookup_app_cons, length_replicate.
          destruct (Nat.ltb_spec k n); [lia|].
          destruct (Nat.eqb_spec k n); [lia|]. reflexivity. }
        intros j Hj. rewrite lookup_app_cons, length_write_run.
        destruct (Nat.ltb_spec j n); [lia|].
        destruct (Nat.eqb_spec j n); [lia|].
        apply (IH 0%nat (a - n - 1)%nat (b - n - 1)%nat); cbn [replicate app].
        -- lia.
        -- intros k Hk.
           specialize (Hblock (k + n + 1)%nat).
           rewrite Hshift in Hblock by lia.
           replace (k + n + 1 - n - 1)%nat with k in Hblock by lia.
           apply Hblock. lia.
        -- destruct (Nat.eq_dec (a - n - 1)%nat 0%nat) as [Hz|Hnz]; [left; exact Hz|].
           right. destruct Hleft as [Ha|Hleft]; [lia|].
           rewrite Hshift in Hleft by lia.
           replace (a - 1 - n - 1)%nat with (a - n - 1 - 1)%nat in Hleft by lia.
           exact Hleft.
        -- destruct (Nat.le_gt_cases b n); [lia|].
           rewrite Hshift in Hright by lia. exact Hright.
        -- lia.
        -- lia.
Qed.

(** An element other than [char] is where it was after the pass, and the pass
    creates no element other than 'N'. *)
Lemma nullify_short_runs_other (min_length : Z) (char : string)
    (l : list string) (i : nat) (c : string) :
  c <> char ->
  l !! i = Some c -> nullify_short_runs min_length char 0 l !! i = Some c.
Proof.
  intros Hc Hi.
  destruct (nullify_short_runs_pointwise min_length char l 0 i)
    as [Hsame | (_ & Hchar)]; cbn [replicate app] in *.
  - rewrite Hsame. exact Hi.
  - congruence.
Qed.

Lemma nullify_short_runs_origin (min_length : Z) (char : string)
    (l : list string) (i : nat) (c : string) :
  c <> "N" ->
  nullify_short_runs min_length char 0 l !! i = Some c -> l !! i = Some c.
Proof.
  intros Hc Hi.
  destruct (nullify_short_runs_pointwise min_length char l 0 i)
    as [Hsame | (HN & _)]; cbn [replicate app] in *.
  - rewrite <- Hsame. exact Hi.
  - congruence.
Qed.

(** The pass changes nothing in an array in which every [char] already sits
    in a block at least [min_length] long. *)
Lemma nullify_short_runs_fixed (min_length : Z) (char : string)
    (l : list string) :
  (forall i : nat,
     l !! i = Some char ->
     exists a b : nat,
       (a <= i < b)%nat /\ min_length <= Z.of_nat (b - a) /\ block l char a b) ->
  nullify_short_runs min_length char 0 l = l.
Proof.
  intros Hlong. apply list_eq. intros i.
  destruct (nullify_short_runs_pointwise min_length char l 0 i)
    as [Hsame | (_ & Hchar)]; cbn [replicate app] in *.
  - exact Hsame.
  - destruct (Hlong i Hchar) as (a & b & Hab & Hlen & Hblock).
    rewrite Hchar.
    apply (nullify_short_runs_keeps min_length char l 0 a b); assumption.
Qed.

(** After both iterations, a surviving 'H' or 'L' sits in a block at least
    [min_length] long. *)
Lemma two_pass_survivors (min_length : Z) (seq : list string) (i : nat)
    (c : string) :
  c = "H" \/ c = "L" ->
  nullify_short_runs min_length "L" 0
    (nullify_short_runs min_length "H" 0 seq) !! i = Some c ->
  exists a b : nat,
    (a <= i < b)%nat
    /\ min_length <= Z.of_nat (b - a)
    /\ block (nullify_short_runs min_length "L" 0
                (nullify_short_runs min_length "H" 0 seq)) c a b.
Proof.
  intros [-> | ->] Hi.
  - apply nullify_short_runs_origin in Hi; [|discriminate].
    destruct (nullify_short_runs_survivors min_length "H" seq
                ltac:(discriminate) 0%nat i Hi)
      as (a & b & Hab & Hlen & Hblock).
    exists a, b. split; [exact Hab|]. split; [exact Hlen|].
    intros j Hj. apply nullify_short_runs_other; [discriminate|].
    apply Hblock. exact Hj.
  - apply (nullify_short_runs_survivors min_length "L" _
             ltac:(discriminate) 0%nat i Hi).
Qed.

(** ** [filter_events] *)

(** X11: [filter_events] never raises, whatever the strings in the array and
    whatever [min_length]: the start and end indices it finds always pair up
    and every assignment is within the array; the array keeps its length. *)
Theorem filter_events_returns (seq : list string) (min_length : Z) :
  exists seq' : list string,
    filter_events seq min_length = Return seq'
    /\ length seq' = length seq.
Proof.
  eexists. split; [apply filter_events_run|].
  rewrite !length_nullify_short_runs. reflexivity.
Qed.

(** X12: [filter_events] leaves every element other than 'H' and 'L' as it
    is, and an 'H' or 'L' either stays or becomes 'N'. *)
Theorem filter_events_pointwise (seq seq' : list string) (min_length : Z) :
  filter_events seq min_length = Return seq' ->
  forall (i : nat) (c : string),
    seq !! i = Some c ->
    seq' !! i = Some c
    \/ (seq' !! i = Some "N" /\ (c = "H" \/ c = "L")).
Proof.
  intros Hrun i c Hi. rewrite filter_events_run in Hrun. injection Hrun as <-.
  destruct (nullify_short_runs_pointwise min_length "L"
              (nullify_short_runs min_length "H" 0 seq) 0 i)
    as [Hsame2 | (HN2 & Hchar2)];
    destruct (nullify_short_runs_pointwise min_length "H" seq 0 i)
      as [Hsame1 | (HN1 & Hchar1)];
    cbn [replicate app] in *.
  - left. congruence.
  - right. split; [congruence|]. left. congruence.
  - right. split; [exact HN2|]. right. congruence.
  - right. split; [exact HN2|]. left. congruence.
Qed.

Lemma filter_events_pointwise_witness :
  ["N"; "x"; "L"; "L"] !! 0%nat = Some "H"
  \/ (["N"; "x"; "L"; "L"] !! 0%nat = Some "N" /\ ("H" = "H" \/ "H" = "L")).
Proof.
  exact (filter_events_pointwise ["H"; "x"; "L"; "L"] ["N"; "x"; "L"; "L"] 2
           eq_refl 0%nat "H" eq_refl).
Defined.

(** X13: after [filter_events], every 'H' (and every 'L') left in the array
    sits in a block of 'H' (of 'L') at least [min_length] long: no event
    shorter than [min_length] survives. *)
Theorem filter_events_survivors (seq seq' : list string) (min_length : Z) :
  filter_events seq min_length = Return seq' ->
  forall (i : nat) (c : string),
    c = "H" \/ c = "L" ->
    seq' !! i = Some c ->
    exists a b : nat,
      (a <= i < b)%nat
      /\ min_length <= Z.of_nat (b - a)
      /\ block seq' c a b.
Proof.
  intros Hrun i c Hc Hi. rewrite filter_events_run in Hrun.
  injection Hrun as <-.
  apply two_pass_survivors; assumption.
Qed.

Lemma filter_events_survivors_witness :
  exists a b : nat,
    (a <= 3 < b)%nat
    /\ 2 <= Z.of_nat (b - a)
    /\ block ["N"; "x"; "L"; "L"] "L" a b.
Proof.
  exact (filter_events_survivors ["H"; "x"; "L"; "L"] ["N"; "x"; "L"; "L"] 2
           eq_refl 3%nat "L" (or_intror eq_refl) eq_refl).
Defined.

(** X14: [filter_events] keeps every event that is long enough: a block of
    'H' (or of 'L') at least [min_length] long is unchanged. *)
Theorem filter_events_keeps_long (seq seq' : list string) (min_length : Z) :
  filter_events seq min_length = Return seq' ->
  forall (a b : nat) (c : string),
    c = "H" \/ c = "L" ->
    block seq c a b ->
    min_length <= Z.of_nat (b - a) ->
    block seq' c a b.
Proof.
  intros Hrun a b c Hc Hblock Hlong. rewrite filter_events_run in Hrun.
  injection Hrun as <-.
  destruct Hc as [-> | ->].
  - intros j Hj. apply nullify_short_runs_other; [discriminate|].
    apply (nullify_short_runs_keeps min_length "H" seq 0 a b); assumption.
  - apply (nullify_short_runs_keeps min_length "L" _ 0 a b); [|exact Hlong].
    intros j Hj. cbn [replicate app].
    apply nullify_short_runs_other; [discriminate|].
    apply Hblock. exact Hj.
Qed.

Lemma filter_events_keeps_long_witness :
  block ["N"; "x"; "L"; "L"] "L" 2 4.
Proof.
  apply (filter_events_keeps_long ["H"; "x"; "L"; "L"] ["N"; "x"; "L"; "L"] 2
           eq_refl 2%nat 4%nat "L" (or_intror eq_refl)).
  - intros j Hj.
    destruct j as [|[|[|[|j]]]]; [lia | lia | reflexivity | reflexivity | lia].
  - vm_compute. discriminate.
Defined.

(** X15: [filter_events] sets every event that is too short to 'N': a maximal
    block of 'H' (or of 'L'), one with no 'H' ('L') just before or just after
    it, that is shorter than [min_length] is all 'N' afterwards. *)
Theorem filter_events_nullifies_short (seq seq' : list string) (min_length : Z) :
  filter_events seq min_length = Return seq' ->
  forall (a b : nat) (c : string),
    c = "H" \/ c = "L" ->
    (a < b)%nat ->
    block seq c a b ->
    (a = 0%nat \/ seq !! (a - 1)%nat <> Some c) ->
    seq !! b <> Some c ->
    Z.of_nat (b - a) < min_length ->
    block seq' "N" a b.
Proof.
  intros Hrun a b c Hc Hab Hblock Hleft Hright Hshort.
  rewrite filter_events_run in Hrun. injection Hrun as <-.
  destruct Hc as [-> | ->].
  - intros j Hj. apply nullify_short_runs_other; [discriminate|].
    apply (nullify_short_runs_nullifies min_length "H" seq 0 a b); assumption.
  - apply (nullify_short_runs_nullifies min_length "L" _ 0 a b);
      cbn [replicate app].
    + exact Hab.
    + intros j Hj. apply nullify_short_runs_other; [discriminate|].
      apply Hblock. exact Hj.
    + destruct Hleft as [Ha|Hleft]; [left; exact Ha|].
      right. intros Hl. apply Hleft.
      apply (nullify_short_runs_origin min_length "H"); [discriminate|exact Hl].
    + intros Hl. apply Hright.
      apply (nullify_short_runs_origin min_length "H"); [discriminate|exact Hl].
    + exact Hshort.
Qed.

Lemma filter_events_nullifies_short_witness :
  block ["N"; "x"; "L"; "L"] "N" 0 1.
Proof.
  apply (filter_events_nullifies_short ["H"; "x"; "L"; "L"]
           ["N"; "x"; "L"; "L"] 2 eq_refl 0%nat 1%nat "H" (or_introl eq_refl)).
  - lia.
  - intros j Hj. destruct j as [|j]; [reflexivity | lia].
  - left. reflexivity.
  - discriminate.
  - lia.
Defined.

(** X16: [filter_events] is idempotent: run again on the array it has
    filtered, with the same [min_length], it changes nothing. *)
Theorem filter_events_idempotent (seq seq' : list string) (min_length : Z) :
  filter_events seq min_length = Return seq' ->
  filter_events seq' min_length = Return seq'.
Proof.
  intros Hrun. rewrite filter_events_run in Hrun. injection Hrun as <-.
  rewrite filter_events_run. f_equal.
  set (x := nullify_short_runs min_length "L" 0
              (nullify_short_runs min_length "H" 0 seq)).
  assert (HH : nullify_short_runs min_length "H" 0 x = x).
  { apply nullify_short_runs_fixed. intros i Hi.
    apply two_pass_survivors; [left; reflexivity | exact Hi]. }
  rewrite HH.
  apply nullify_short_runs_fixed. intros i Hi.
  apply two_pass_survivors; [right; reflexivity | exact Hi].
Qed.

Lemma filter_events_idempotent_witness :
  filter_events ["N"; "x"; "L"; "L"] 2 = Return ["N"; "x"; "L"; "L"].
Proof.
  exact (filter_events_idempotent ["H"; "x"; "L"; "L"] ["N"; "x"; "L"; "L"] 2
           eq_refl).
Defined.

(** X17: with [min_length] at most 1 [filter_events] changes nothing: every
    event is at least one element long. *)
Theorem filter_events_min_length_1 (seq : list string) (min_length : Z) :
  min_length <= 1 ->
  filter_events seq min_length = Return seq.
Proof.
  intros Hm. rewrite filter_events_run. f_equal.
  assert (Hfixed : forall (char : string) (l : list string),
             nullify_short_runs min_length char 0 l = l).
  { intros char l. apply nullify_short_runs_fixed. intros i Hi.
    exists i, (S i). split; [lia|]. split; [lia|].
    intros j Hj. replace j with i by lia. exact Hi. }
  rewrite !Hfixed. reflexivity.
Qed.

Lemma filter_events_min_length_1_witness :
  filter_events ["H"; "x"; "L"; "L"] 1 = Return ["H"; "x"; "L"; "L"].
Proof.
  apply (filter_events_min_length_1 ["H"; "x"; "L"; "L"] 1). lia.
Defined.

(** ** [classify] *)

(** The binary64 order is transitive. *)
Lemma SFleb_trans (a b c : spec_float) :
  SFleb a b = true -> SFleb b c = true -> SFleb a c = true.
Proof.
  unfold SFleb, SFcompare.
  destruct a as [sa|sa| |sa ma ea], b as [sb|sb| |sb mb eb],
    c as [sc|sc| |sc mc ec];
    try discriminate; try reflexivity;
    try (destruct sa, sb, sc; simpl; (discriminate || reflexivity)).
  all: destruct sa, sb, sc; try discriminate; try reflexivity.
  all: change (IntDef.Z.compare) with Z.compare;
       change (PosDef.Pos.compare_cont Eq) with Pos.compare.
  all: destruct (Z.compare_spec ea eb), (Z.compare_spec eb ec),
         (Z.compare_spec ea ec);
       try discriminate; try reflexivity; try lia.
  all: subst.
  all: destruct (Pos.compare_spec ma mb), (Pos.compare_spec mb mc),
         (Pos.compare_spec ma mc);
       simpl; try discriminate; try reflexivity; try lia.
Qed.

Lemma leb_trans (a b c : float) :
  PrimFloat.leb a b = true -> PrimFloat.leb b c = true ->
  PrimFloat.leb a c = true.
Proof. rewrite !leb_spec. apply SFleb_trans. Qed.

Lemma leb_nan_l (x : float) : PrimFloat.leb nan x = false.
Proof. rewrite leb_spec. reflexivity. Qed.

Lemma leb_nan_r (x : float) : PrimFloat.leb x nan = false.
Proof.
  rewrite leb_spec. change (Prim2SF nan) with S754_nan.
  destruct (Prim2SF x); reflexivity.
Qed.

Lemma classify_nan_index (low_threshold high_threshold : float) :
  classify nan low_threshold high_threshold = "N".
Proof. unfold classify. rewrite !leb_nan_l, leb_nan_r. reflexivity. Qed.

(** X18: a NaN index value is classified 'N' whatever the thresholds, and
    with both thresholds NaN every value is classified 'N': comparisons with
    NaN are false. *)
Theorem classify_nan (x low_threshold high_threshold : float) :
  classify nan low_threshold high_threshold = "N"
  /\ classify x nan nan = "N".
Proof.
  split; [apply classify_nan_index|].
  unfold classify. rewrite leb_nan_r, leb_nan_l. reflexivity.
Qed.

(** X19: [classify] is monotone in the index value, for any thresholds: if
    [v <= w] then [w] classified 'L' makes [v] 'L', and [v] classified 'H'
    makes [w] 'H'. *)
Theorem classify_monotone (v w low_threshold high_threshold : float) :
  PrimFloat.leb v w = true ->
  (classify w low_threshold high_threshold = "L" ->
   classify v low_threshold high_threshold = "L")
  /\ (classify v low_threshold high_threshold = "H" ->
      classify w low_threshold high_threshold = "H").
Proof.
  intros Hvw. unfold classify. split.
  - destruct (PrimFloat.leb w low_threshold) eqn:Hw.
    + intros _. rewrite (leb_trans v w low_threshold Hvw Hw). reflexivity.
    + destruct (PrimFloat.leb high_threshold w); discriminate.
  - destruct (PrimFloat.leb v low_threshold) eqn:Hv; [discriminate|].
    destruct (PrimFloat.leb high_threshold v) eqn:Hh; [|discriminate].
    intros _.
    destruct (PrimFloat.leb w low_threshold) eqn:Hw.
    + rewrite (leb_trans v w low_threshold Hvw Hw) in Hv. discriminate.
    + rewrite (leb_trans high_threshold v w Hh Hvw). reflexivity.
Qed.

Lemma classify_monotone_witness :
  (classify 1 (-0.5) 0.5 = "L" -> classify 0.75 (-0.5) 0.5 = "L")
  /\ (classify 0.75 (-0.5) 0.5 = "H" -> classify 1 (-0.5) 0.5 = "H").
Proof.
  apply (classify_monotone 0.75 1 (-0.5) 0.5). reflexivity.
Defined.

(** X20: on an array of labels made by [classify], [filter_events] returns
    labels that are each 'H', 'L' or 'N'; a NaN value gets 'N'. *)
Theorem filter_events_of_classify (values : list float)
    (low_threshold high_threshold : float) (min_length : Z)
    (labels : list string) :
  filter_events
    (map (fun v => classify v low_threshold high_threshold) values)
    min_length
  = Return labels ->
  length labels = length values
  /\ (forall (i : nat) (c : string),
        labels !! i = Some c -> c = "H" \/ c = "L" \/ c = "N")
  /\ (forall i : nat, values !! i = Some nan -> labels !! i = Some "N").
Proof.
  intros Hrun.
  assert (Hlen : length labels = length values).
  { rewrite filter_events_run in Hrun. injection Hrun as <-.
    rewrite !length_nullify_short_runs, length_map. reflexivity. }
  assert (Hpoint : forall i c,
             map (fun v => classify v low_threshold high_threshold) values !! i
             = Some c ->
             labels !! i = Some c \/ labels !! i = Some "N").
  { intros i c Hi. rewrite filter_events_run in Hrun. injection Hrun as <-.
    destruct (nullify_short_runs_pointwise min_length "L"
                (nullify_short_runs min_length "H" 0
                   (map (fun v => classify v low_threshold high_threshold) values))
                0 i) as [Hsame2 | (HN2 & _)];
      destruct (nullify_short_runs_pointwise min_length "H"
                  (map (fun v => classify v low_threshold high_threshold) values)
                  0 i) as [Hsame1 | (HN1 & _)];
      cbn [replicate app] in *.
    - left. congruence.
    - right. congruence.
    - right. exact HN2.
    - right. exact HN2. }
  split; [exact Hlen|]. split.
  - intros i c Hi.
    assert (Hin : (i < length values)%nat).
    { apply lookup_lt_Some in Hi. lia. }
    destruct (lookup_lt_is_Some_2 values i Hin) as (v & Hv).
    assert (Hsrc : map (fun v => classify v low_threshold high_threshold) values !! i
                   = Some (classify v low_threshold high_threshold)).
    { rewrite lookup_map, Hv. reflexivity. }
    destruct (Hpoint i _ Hsrc) as [Hkeep | HN].
    + rewrite Hkeep in Hi. injection Hi as <-. unfold classify.
      destruct (PrimFloat.leb v low_threshold); [right; left; reflexivity|].
      destruct (PrimFloat.leb high_threshold v);
        [left; reflexivity | right; right; reflexivity].
    + rewrite HN in Hi. injection Hi as <-. right. right. reflexivity.
  - intros i Hi.
    assert (Hsrc : map (fun v => classify v low_threshold high_threshold) values !! i
                   = Some "N").
    { rewrite lookup_map, Hi. cbn [fmap option_fmap option_map].
      f_equal. apply (classify_nan_index low_threshold high_threshold). }
    destruct (Hpoint i "N" Hsrc) as [Hkeep | HN]; assumption.
Qed.

Lemma filter_events_of_classify_witness :
  length ["N"; "N"; "H"; "H"] = length [1; nan; 2; 3]%float
  /\ (forall (i : nat) (c : string),
        ["N"; "N"; "H"; "H"] !! i = Some c -> c = "H" \/ c = "L" \/ c = "N")
  /\ (forall i : nat,
        [1; nan; 2; 3]%float !! i = Some nan ->
        ["N"; "N"; "H"; "H"] !! i = Some "N").
Proof.
  apply (filter_events_of_classify [1; nan; 2; 3]%float (-0.5) 0.5 2
           ["N"; "N"; "H"; "H"]).
  vm_compute. reflexivity.
Defined.
